(** * WebflowStyles: a verification development for [src/index.ts]

    The extension is a handful of DOM event handlers that call a few
    methods of the Webflow Designer host.  The development embeds

    - the page elements the handlers read and write ([Document]),
    - the host object model the handlers call ([Webflow]), with every host
      call able to throw or reject,
    - the four functions of [src/index.ts] and the two click handlers,

    and states the properties of the specification over them.  *)

From Stdlib Require Import NArith Ascii String List Bool Lia.
From stdpp Require Import base option list strings gmap pretty.

Local Open Scope string_scope.
Local Open Scope list_scope.

(** ** Strings *)

(** [Contains sub s]: [sub] occurs in [s] as a contiguous run of characters
    (JavaScript's [s.includes(sub)]). *)
Definition Contains (sub s : string) : Prop :=
  exists pre post : string, s = pre +:+ sub +:+ post.

(** ** Thrown values

    The handlers only ever observe a thrown value through the template
    literal [`${error}`], that is through [Error.prototype.toString].  A
    thrown value is an [Error] object, given by its name and message; a
    thrown string is its own text, as an error without a name is. *)

Record JsError := mkError { err_name : string; err_message : string }.

(** [Error.prototype.toString]: the name alone, the message alone, or
    [name: message]. *)
Definition errorToString (e : JsError) : string :=
  if decide (err_name e = "") then err_message e
  else if decide (err_message e = "") then err_name e
  else err_name e +:+ ": " +:+ err_message e.

(** The [TypeError]s the engine itself raises in this program (V8's texts). *)
Definition TypeError (msg : string) : JsError := mkError "TypeError" msg.

(** ** Regular expressions

    The literal [/^#([A-Fa-f0-9]{6}|[A-Fa-f0-9]{3})$/] uses literal
    characters, character classes made of ranges, bounded repetition,
    alternation and the two anchors. *)

Module RegExp.

Inductive regex : Type :=
| Void                                  (* no string at all *)
| Eps                                   (* the empty string *)
| Chr (c : ascii)                       (* a literal character *)
| Class (ranges : list (ascii * ascii)) (* [a-b...] *)
| Seq (r1 r2 : regex)
| Alt (r1 r2 : regex).

(** [r{n}] *)
Fixpoint Rep (r : regex) (n : nat) : regex :=
  match n with
  | O => Eps
  | S n' => Seq r (Rep r n')
  end.

Definition in_range (c : ascii) (rg : ascii * ascii) : bool :=
  (N_of_ascii (fst rg) <=? N_of_ascii c)%N && (N_of_ascii c <=? N_of_ascii (snd rg))%N.

Definition in_class (ranges : list (ascii * ascii)) (c : ascii) : bool :=
  existsb (in_range c) ranges.

(** Denotation: the strings a pattern matches from its first to its last
    character. *)
Inductive Matches : regex -> string -> Prop :=
| MEps : Matches Eps ""
| MChr c : Matches (Chr c) (String c "")
| MClass rs c : in_class rs c = true -> Matches (Class rs) (String c "")
| MSeq r1 r2 s1 s2 : Matches r1 s1 -> Matches r2 s2 -> Matches (Seq r1 r2) (s1 +:+ s2)
| MAltL r1 r2 s : Matches r1 s -> Matches (Alt r1 r2) s
| MAltR r1 r2 s : Matches r2 s -> Matches (Alt r1 r2) s.

(** The matcher: Brzozowski derivatives. *)
Fixpoint nullable (r : regex) : bool :=
  match r with
  | Void => false
  | Eps => true
  | Chr _ => false
  | Class _ => false
  | Seq r1 r2 => nullable r1 && nullable r2
  | Alt r1 r2 => nullable r1 || nullable r2
  end.

Fixpoint deriv (c : ascii) (r : regex) : regex :=
  match r with
  | Void => Void
  | Eps => Void
  | Chr d => if decide (c = d) then Eps else Void
  | Class rs => if in_class rs c then Eps else Void
  | Seq r1 r2 =>
      if nullable r1 then Alt (Seq (deriv c r1) r2) (deriv c r2)
      else Seq (deriv c r1) r2
  | Alt r1 r2 => Alt (deriv c r1) (deriv c r2)
  end.

(** [/^r$/.test(s)]: with both anchors and no flag, the whole of [s] has
    to match. *)
Fixpoint test (r : regex) (s : string) : bool :=
  match s with
  | EmptyString => nullable r
  | String c s' => test (deriv c r) s'
  end.

End RegExp.

(** The pattern of [getFontColorValue], [#([A-Fa-f0-9]{6}|[A-Fa-f0-9]{3})]
    between the anchors. *)
Definition hexDigit : RegExp.regex :=
  RegExp.Class [("A", "F"); ("a", "f"); ("0", "9")]%char.

Definition hexColorPattern : RegExp.regex :=
  RegExp.Seq (RegExp.Chr "#")
    (RegExp.Alt (RegExp.Rep hexDigit 6) (RegExp.Rep hexDigit 3)).

(** What the pattern says in words: a hash sign followed by exactly six or
    exactly three hexadecimal digits of either case. *)
Definition isHexDigit (c : ascii) : bool :=
  let n := N_of_ascii c in
  ((65 <=? n) && (n <=? 70) || (97 <=? n) && (n <=? 102) || (48 <=? n) && (n <=? 57))%N.

Fixpoint allHex (s : string) : bool :=
  match s with
  | EmptyString => true
  | String c s' => isHexDigit c && allHex s'
  end.

Definition HexColor (s : string) : Prop :=
  exists digits : string,
    s = String "#" digits /\
    (String.length digits = 6 \/ String.length digits = 3) /\
    allHex digits = true.

(** ** The page *)

Inductive Kind := KError | KSuccess.   (* "error" | "success" *)

Record HTMLOptionElement := mkOption { opt_value : string; opt_textContent : string }.

(** A dropdown: its options and the value currently chosen in it. *)
Record HTMLSelectElement := mkSelect { sel_options : list HTMLOptionElement; sel_value : string }.

Record HTMLInputElement := mkInput { in_value : string }.

(** The feedback region: its text and the colour of its style. *)
Record FeedbackElement := mkFeedback { fb_textContent : string; fb_color : string }.

(** [document.getElementById] for the ids the program uses.  The program
    dereferences [feedbackMessage], [fontSizeDropdown], [fontColorHex],
    [fontColorDropdown] and [comboClassInput] unguarded (it declares them
    non-null); it guards [fontFamilyDropdown], [submitStyles] and
    [checkComboClass] with [?.], so these may be absent. *)
Record Document := mkDocument {
  feedbackMessage : FeedbackElement;
  fontSizeDropdown : HTMLSelectElement;
  fontColorHex : HTMLInputElement;
  fontColorDropdown : HTMLSelectElement;
  fontFamilyDropdown : option HTMLSelectElement;
  comboClassInput : HTMLInputElement;
  submitStyles : bool;          (* the button exists *)
  checkComboClassButton : bool  (* the button exists *)
}.

Definition set_feedbackMessage (f : FeedbackElement) (d : Document) : Document :=
  mkDocument f (fontSizeDropdown d) (fontColorHex d) (fontColorDropdown d)
    (fontFamilyDropdown d) (comboClassInput d) (submitStyles d) (checkComboClassButton d).

Definition set_fontFamilyDropdown (s : option HTMLSelectElement) (d : Document) : Document :=
  mkDocument (feedbackMessage d) (fontSizeDropdown d) (fontColorHex d) (fontColorDropdown d)
    s (comboClassInput d) (submitStyles d) (checkComboClassButton d).

(** ** Font list and dropdown ([populateFontFamilyDropdown]) *)

Definition fonts : list string :=
  ["Arial"; "Verdana"; "Helvetica"; "Times New Roman"; "Georgia"; "Courier New"].

(** The body of the [forEach] callback: create an option whose value and
    text are the font, append it when the dropdown exists. *)
Definition createOption (font : string) : HTMLOptionElement :=
  mkOption font font.

(** [select.appendChild(option)] on a single-selection dropdown whose
    options are all enabled, as the ones this program creates are.  The new
    option comes last.  A dropdown without options has nothing selected,
    and the first option it receives becomes the selected one: the value of
    the dropdown is then the value of that option.  A dropdown that has
    options keeps the one selected, and its value. *)
Definition appendChild (o : HTMLOptionElement) (s : HTMLSelectElement) : HTMLSelectElement :=
  mkSelect (sel_options s ++ [o])
    (match sel_options s with
     | [] => opt_value o
     | _ :: _ => sel_value s
     end).

Definition populateStep (d : Document) (font : string) : Document :=
  let option := createOption font in
  match fontFamilyDropdown d with
  | Some dd => set_fontFamilyDropdown (Some (appendChild option dd)) d
  | None => d
  end.

Definition populateFontFamilyDropdown (d : Document) : Document :=
  fold_left populateStep fonts d.

(** ** Colour resolver ([getFontColorValue]) *)

(** Truthiness of a string: every string but the empty one. *)
Definition truthy (s : string) : bool :=
  match s with EmptyString => false | String _ _ => true end.

Definition getFontColorValue (d : Document) : string :=
  let hexColorInput := fontColorHex d in
  let colorDropdown := fontColorDropdown d in
  if truthy (in_value hexColorInput) && RegExp.test hexColorPattern (in_value hexColorInput)
  then in_value hexColorInput
  else sel_value colorDropdown.

(** ** The host object model

    [webflow], the styles it creates and the element it hands out are
    objects of the Designer.  The model keeps what the program can observe
    of them and what its calls change. *)

(** A style of the site: its display name and its CSS properties. *)
Record Style := mkStyle { style_name : string; style_properties : gmap string string }.

(** An element of the page being designed.  [el_styles] is the [styles]
    member the program tests before attaching a style: it is absent on the
    element kinds that cannot be styled.  [el_saved] is what the last
    [save()] of the element stored in the site. *)
Record Element := mkElement {
  el_styles : option (list Style);
  el_saved : option (list Style)
}.

(** Any host call may throw (or reject the promise it returns).  A [Faults]
    names the error each call fails with while one handler runs, or [None]
    where the call succeeds. *)
Record Faults := mkFaults {
  getSelectedElement_fault : option JsError;
  createStyle_fault : option JsError;
  setProperties_fault : option JsError;
  style_save_fault : option JsError;
  setStyles_fault : option JsError;
  element_save_fault : option JsError;
  getStyles_fault : option JsError;
  getName_fault : Style -> option JsError
}.

Definition noFaults : Faults :=
  mkFaults None None None None None None None (fun _ => None).

(** [getStyles_async]: [Element.getStyles()] returns a promise of the
    array, as the interface in [index.ts] declares it, rather than the
    array itself. *)
Record Webflow := mkWebflow {
  selected : option Element;
  site_styles : list Style;      (* styles saved to the site, oldest first *)
  getStyles_async : bool;
  faults : Faults
}.

(** What a handler does to its surroundings, in the order it does it. *)
Inductive Call :=
| GetSelectedElement
| CreateStyle (name : string)
| SetProperties (name : string) (props : gmap string string)
| StyleSave (s : Style)
| ReadStyles                       (* selectedElement.styles *)
| SetStyles (l : list Style)
| ElementSave
| GetStyles
| GetName (s : Style)
| DisplayFeedback (message : string) (type : Kind).

Record World := mkWorld {
  webflow : Webflow;
  document : Document;
  calls : list Call                (* oldest first *)
}.

(** ** Computations that call the host

    A handler runs to a normal completion or to a thrown value; what it did
    before throwing stays done.  For an [async] function a normal
    completion resolves its promise and a thrown value rejects it.  The
    awaits of one handler are run back to back. *)

Inductive Completion (A : Type) :=
| Normal (a : A)
| Throw (e : JsError).
Arguments Normal {A} a.
Arguments Throw {A} e.

Definition M (A : Type) : Type := World -> Completion A * World.

Definition ret {A} (a : A) : M A := fun w => (Normal a, w).

Definition bind {A B} (m : M A) (k : A -> M B) : M B := fun w =>
  match m w with
  | (Normal a, w') => k a w'
  | (Throw e, w') => (Throw e, w')
  end.

Definition throw {A} (e : JsError) : M A := fun w => (Throw e, w).

(** [try { body } catch (error) { handler }] *)
Definition try_catch {A} (body : M A) (handler : JsError -> M A) : M A := fun w =>
  match body w with
  | (Normal a, w') => (Normal a, w')
  | (Throw e, w') => handler e w'
  end.

Notation "x <- m ;; k" := (bind m (fun x => k))
  (at level 100, m at next level, right associativity).
Notation "m ;; k" := (bind m (fun _ => k))
  (at level 100, right associativity).

Definition record (c : Call) : M unit := fun w =>
  (Normal tt, mkWorld (webflow w) (document w) (calls w ++ [c])).

Definition failing (f : Faults -> option JsError) : M unit := fun w =>
  match f (faults (webflow w)) with
  | Some e => (Throw e, w)
  | None => (Normal tt, w)
  end.

Definition set_selected (e : option Element) (h : Webflow) : Webflow :=
  mkWebflow e (site_styles h) (getStyles_async h) (faults h).

Definition set_site_styles (l : list Style) (h : Webflow) : Webflow :=
  mkWebflow (selected h) l (getStyles_async h) (faults h).

Definition update_webflow (f : Webflow -> Webflow) : M unit := fun w =>
  (Normal tt, mkWorld (f (webflow w)) (document w) (calls w)).

(** *** Host calls *)

Definition getSelectedElement : M (option Element) :=
  record GetSelectedElement ;;
  failing getSelectedElement_fault ;;
  fun w => (Normal (selected (webflow w)), w).

Definition createStyle (name : string) : M Style :=
  record (CreateStyle name) ;;
  failing createStyle_fault ;;
  ret (mkStyle name ∅).

Definition setProperties (s : Style) (props : gmap string string) : M Style :=
  record (SetProperties (style_name s) props) ;;
  failing setProperties_fault ;;
  ret (mkStyle (style_name s) props).

Definition style_save (s : Style) : M unit :=
  record (StyleSave s) ;;
  failing style_save_fault ;;
  update_webflow (fun h => set_site_styles (site_styles h ++ [s]) h).

(** The handlers hold the selected element by reference; it is the object at
    [selected]. *)
Definition read_styles : M (option (list Style)) :=
  record ReadStyles ;;
  fun w => (Normal (el ← selected (webflow w); el_styles el), w).

Definition setStyles (l : list Style) : M unit :=
  record (SetStyles l) ;;
  failing setStyles_fault ;;
  update_webflow (fun h =>
    set_selected ((fun el => mkElement (Some l) (el_saved el)) <$> selected h) h).

Definition element_save : M unit :=
  record ElementSave ;;
  failing element_save_fault ;;
  update_webflow (fun h =>
    set_selected ((fun el => mkElement (el_styles el) (el_styles el)) <$> selected h) h).

(** What [getStyles()] hands back: the array, or a promise of it. *)
Inductive StylesValue :=
| ArrayOf (l : list Style)
| PromiseOf (l : list Style).

Definition getStyles : M StylesValue :=
  record GetStyles ;;
  failing getStyles_fault ;;
  fun w =>
    let l := default [] (el ← selected (webflow w); el_styles el) in
    (Normal (if getStyles_async (webflow w) then PromiseOf l else ArrayOf l), w).

Definition getName (s : Style) : M string :=
  record (GetName s) ;;
  failing (fun f => getName_fault f s) ;;
  ret (style_name s).

(** [Array.prototype.some]: the callback runs on the elements in order and
    stops at the first one it accepts. *)
Fixpoint array_some (p : Style -> M bool) (l : list Style) : M bool :=
  match l with
  | [] => ret false
  | s :: l' => b <- p s ;; if b then ret true else array_some p l'
  end.

(** [styles.some(callback)]: a promise has no [some]. *)
Definition some (styles : StylesValue) (p : Style -> M bool) : M bool :=
  match styles with
  | ArrayOf l => array_some p l
  | PromiseOf _ => throw (TypeError "styles.some is not a function")
  end.

(** ** The functions of [index.ts] *)

Definition displayFeedback (message : string) (type : Kind) : M unit := fun w =>
  let color := match type with KError => "red" | KSuccess => "green" end in
  (Normal tt,
   mkWorld (webflow w)
     (set_feedbackMessage (mkFeedback message color) (document w))
     (calls w ++ [DisplayFeedback message type])).

Definition applyStyles (styleObject : gmap string string) (styleName : string) : M unit :=
  selectedElement <- getSelectedElement ;;
  match selectedElement with
  | None => displayFeedback "No element is currently selected." KError
  | Some _ =>
      try_catch
        (myStyle <- createStyle styleName ;;
         myStyle <- setProperties myStyle styleObject ;;
         style_save myStyle ;;
         styles <- read_styles ;;
         match styles with
         | Some _ =>
             setStyles [myStyle] ;;
             element_save ;;
             displayFeedback "Styles successfully applied!" KSuccess
         | None => ret tt
         end)
        (fun error =>
           displayFeedback ("Error applying styles: " +:+ errorToString error) KError)
  end.

Definition dquote : string := String "034"%char EmptyString.

Definition checkComboClass (comboClassName : string) : M unit :=
  selectedElement <- getSelectedElement ;;
  match selectedElement with
  | None => displayFeedback "No element is currently selected." KError
  | Some _ =>
      try_catch
        (styles <- getStyles ;;
         hasComboClass <-
           some styles (fun style =>
             name <- getName style ;; ret (bool_decide (name = comboClassName))) ;;
         if hasComboClass then
           displayFeedback
             ("Combo class " +:+ dquote +:+ comboClassName +:+ dquote +:+ " exists.") KSuccess
         else
           displayFeedback
             ("Combo class " +:+ dquote +:+ comboClassName +:+ dquote +:+ " does not exist.") KError)
        (fun error =>
           displayFeedback ("Error checking for combo class: " +:+ errorToString error) KError)
  end.

(** ** The style counter

    [styleCounter] is a JavaScript number.  It starts at [0] and is only
    ever incremented, so it holds an integer; [n + 1] is exact up to
    [2^53], and at [2^53] the sum is not representable and rounds (to even)
    back to [2^53].  Every value it takes is below [10^21], where the
    template literal prints a number in plain decimal. *)

Definition maxExact : N := 2 ^ 53.

Definition increment (n : N) : N :=
  if (n <? maxExact)%N then (n + 1)%N else n.

Definition numberToString (n : N) : string := pretty n.

(** [`dynamicStyle${styleCounter}`] *)
Definition dynamicStyle (styleCounter : N) : string :=
  "dynamicStyle" +:+ numberToString styleCounter.

(** ** The click handlers *)

(** The object literal handed to [applyStyles]. *)
Definition styleObjectOf (fontSize fontColor fontFamily : string) : gmap string string :=
  <["font-family" := fontFamily]> (<["color" := fontColor]> (<["font-size" := fontSize]> ∅)).

(** The submit handler up to the call of [applyStyles]: read the three
    controls, build the name from the counter and increment the counter.
    Reading [.value] off a missing font-family dropdown throws before the
    counter is touched. *)
Definition prepareSubmit (styleCounter : N) (d : Document)
  : Completion (gmap string string * string) * N :=
  let fontSize := sel_value (fontSizeDropdown d) in
  let fontColor := getFontColorValue d in
  match fontFamilyDropdown d with
  | None =>
      (Throw (TypeError "Cannot read properties of null (reading 'value')"), styleCounter)
  | Some dropdown =>
      let fontFamily := sel_value dropdown in
      let styleName := dynamicStyle styleCounter in
      (Normal (styleObjectOf fontSize fontColor fontFamily, styleName), increment styleCounter)
  end.

Definition onSubmitClick (styleCounter : N) (w : World) : Completion unit * (N * World) :=
  match prepareSubmit styleCounter (document w) with
  | (Normal (styleObject, styleName), styleCounter') =>
      let '(r, w') := applyStyles styleObject styleName w in
      (r, (styleCounter', w'))
  | (Throw e, styleCounter') => (Throw e, (styleCounter', w))
  end.

Definition onCheckComboClassClick (w : World) : Completion unit * World :=
  let comboClassName := in_value (comboClassInput (document w)) in
  checkComboClass comboClassName w.

(** ** A running session

    [DOMContentLoaded] fills the dropdown, starts the counter at [0] and
    puts a listener on each of the two buttons that exists.
    Between two clicks the user and the host may change the page, the
    selection and the site at will: a session is the list of the worlds the
    successive runs of the submit listener find.  Only [styleCounter], a
    variable of the closure, is carried from one click to the next. *)

Record App := mkApp {
  styleCounter : N;          (* the counter of the closure *)
  submitListener : bool;     (* a click listener is on the submit button *)
  checkListener : bool       (* a click listener is on the check button *)
}.

Definition DOMContentLoaded (w : World) : App * World :=
  let d := populateFontFamilyDropdown (document w) in
  (mkApp 0 (submitStyles d) (checkComboClassButton d),
   mkWorld (webflow w) d (calls w)).

(** The calls a run added to the log. *)
Definition newCalls (before after : World) : list Call :=
  drop (length (calls before)) (calls after).

Definition isSuccess (c : Call) : bool :=
  match c with DisplayFeedback _ KSuccess => true | _ => false end.

Definition isError (c : Call) : bool :=
  match c with DisplayFeedback _ KError => true | _ => false end.

Definition isFeedback (c : Call) : bool :=
  match c with DisplayFeedback _ _ => true | _ => false end.

(** What one click on the submit button amounted to. *)
Record Click := mkClick {
  generated : option string;    (* the style name the click generated *)
  successful : bool;            (* it reported a success *)
  counter_after : N
}.

Definition click (styleCounter : N) (w : World) : Click :=
  let '(_, (styleCounter', w')) := onSubmitClick styleCounter w in
  mkClick
    (match fst (prepareSubmit styleCounter (document w)) with
     | Normal (_, styleName) => Some styleName
     | Throw _ => None
     end)
    (existsb isSuccess (newCalls w w'))
    styleCounter'.

Fixpoint session (styleCounter : N) (clicks : list World) : list Click :=
  match clicks with
  | [] => []
  | w :: rest =>
      let c := click styleCounter w in
      c :: session (counter_after c) rest
  end.

(** The counter once the clicks are done. *)
Fixpoint counterAfter (styleCounter : N) (clicks : list World) : N :=
  match clicks with
  | [] => styleCounter
  | w :: rest => counterAfter (counter_after (click styleCounter w)) rest
  end.

Definition generatedNames (cs : list Click) : list string :=
  omap generated cs.

Definition successes (cs : list Click) : nat :=
  length (filter (fun c => successful c = true) cs).

(** * Vocabulary of the properties *)

(** Every character of [s] is in the class. *)
Fixpoint allIn (rs : list (ascii * ascii)) (s : string) : bool :=
  match s with
  | EmptyString => true
  | String c s' => RegExp.in_class rs c && allIn rs s'
  end.

Definition outcome {A} (m : M A) (w : World) : Completion A := fst (m w).
Definition after {A} (m : M A) (w : World) : World := snd (m w).

(** The early exit of both handlers. *)
Definition noSelectionWorld (w : World) : World :=
  mkWorld (webflow w)
    (set_feedbackMessage (mkFeedback "No element is currently selected." "red") (document w))
    (calls w ++ [GetSelectedElement; DisplayFeedback "No element is currently selected." KError]).

(** The calls that create a style or store something in the site. *)
Definition isCreation (c : Call) : bool :=
  match c with CreateStyle _ => true | _ => false end.

Definition isPersistence (c : Call) : bool :=
  match c with StyleSave _ | ElementSave => true | _ => false end.

Definition isElementWrite (c : Call) : bool :=
  match c with SetStyles _ | ElementSave => true | _ => false end.

(** [getSelectedElement()] resolves with [sel]. *)
Definition hostReturns (w : World) (sel : option Element) : Prop :=
  getSelectedElement_fault (faults (webflow w)) = None /\ selected (webflow w) = sel.

(** Creating the style, setting its properties and saving it all succeed. *)
Definition styleSaved (w : World) : Prop :=
  createStyle_fault (faults (webflow w)) = None /\
  setProperties_fault (faults (webflow w)) = None /\
  style_save_fault (faults (webflow w)) = None.

(** Attaching the style to the element and saving the element succeed. *)
Definition elementSaved (w : World) : Prop :=
  setStyles_fault (faults (webflow w)) = None /\
  element_save_fault (faults (webflow w)) = None.

(** [e] is what the first failing host call of [applyStyles] fails with. *)
Inductive FailsWith (w : World) (el : Element) (e : JsError) : Prop :=
| FailsAtCreateStyle :
    createStyle_fault (faults (webflow w)) = Some e -> FailsWith w el e
| FailsAtSetProperties :
    createStyle_fault (faults (webflow w)) = None ->
    setProperties_fault (faults (webflow w)) = Some e -> FailsWith w el e
| FailsAtStyleSave :
    createStyle_fault (faults (webflow w)) = None ->
    setProperties_fault (faults (webflow w)) = None ->
    style_save_fault (faults (webflow w)) = Some e -> FailsWith w el e
| FailsAtSetStyles :
    styleSaved w -> is_Some (el_styles el) ->
    setStyles_fault (faults (webflow w)) = Some e -> FailsWith w el e
| FailsAtElementSave :
    styleSaved w -> is_Some (el_styles el) ->
    setStyles_fault (faults (webflow w)) = None ->
    element_save_fault (faults (webflow w)) = Some e -> FailsWith w el e.

(** A run in which a host call failed with [e] caught the error and
    reported it. *)
Definition caughtAndReported
    (styleObject : gmap string string) (styleName : string) (w : World) (e : JsError) : Prop :=
  let w' := after (applyStyles styleObject styleName) w in
  let message := "Error applying styles: " +:+ errorToString e in
  outcome (applyStyles styleObject styleName) w = Normal tt /\
  List.filter isFeedback (newCalls w w') = [DisplayFeedback message KError] /\
  Contains (err_message e) message /\
  feedbackMessage (document w') = mkFeedback message "red" /\
  NoDup (newCalls w w').

(** The styles [some] asks for their name: up to the first that matches. *)
Fixpoint examined (name : string) (l : list Style) : list Style :=
  match l with
  | [] => []
  | s :: l' => s :: (if bool_decide (style_name s = name) then [] else examined name l')
  end.

Definition comboExists (name : string) : string :=
  "Combo class " +:+ dquote +:+ name +:+ dquote +:+ " exists.".

Definition comboMissing (name : string) : string :=
  "Combo class " +:+ dquote +:+ name +:+ dquote +:+ " does not exist.".

(** The name the [i]-th naming click of a session at [c] generates. *)
Definition nameAt (c : N) (i : nat) : string :=
  dynamicStyle (N.min (c + N.of_nat i) maxExact).

(** The page of the examples: empty controls, all of them present. *)
Definition blankPage : Document :=
  mkDocument (mkFeedback "" "") (mkSelect [] "16px") (mkInput "") (mkSelect [] "#000000")
    (Some (mkSelect [] "Arial")) (mkInput "hero") true true.

Definition heroElement : Element :=
  mkElement (Some [mkStyle "hero" ∅]) (Some [mkStyle "hero" ∅]).

(** A host that follows the declared interface: [getStyles()] returns a
    promise.  The selected element carries the style [hero]. *)
Definition heroWorld : World :=
  mkWorld (mkWebflow (Some heroElement) [mkStyle "hero" ∅] true noFaults) blankPage [].

(** Nothing is selected; the page has all its controls. *)
Definition lonelyWorld : World :=
  mkWorld (mkWebflow None [] true noFaults) blankPage [].

(** The selected element cannot be styled. *)
Definition bareElement : Element := mkElement None None.

Definition bareWorld : World :=
  mkWorld (mkWebflow (Some bareElement) [] true noFaults) blankPage [].

(** Saving the new style is rejected by the host. *)
Definition rejected : JsError := mkError "Error" "Style name already exists".

Definition rejectingWorld : World :=
  mkWorld
    (mkWebflow (Some heroElement) [mkStyle "hero" ∅] true
       (mkFaults None None None (Some rejected) None None None (fun _ => None)))
    blankPage [].

(** A valid hex colour typed into the input. *)
Definition redPage : Document :=
  mkDocument (mkFeedback "" "") (mkSelect [] "16px") (mkInput "#FF0000") (mkSelect [] "#000000")
    (Some (mkSelect [] "Arial")) (mkInput "hero") true true.

Definition exampleStyle : gmap string string := styleObjectOf "16px" "#FF0000" "Arial".

(** Three clicks on the submit button: with nothing selected, with an
    element that takes the style, with a host that rejects the save. *)
Definition threeClicks : list World := [lonelyWorld; heroWorld; rejectingWorld].

(** ** Vocabulary of the further properties *)

(** The colour [displayFeedback] gives a kind of message. *)
Definition colourOf (type : Kind) : string :=
  match type with KError => "red" | KSuccess => "green" end.

(** What the feedback region shows once the calls [l] are done, when it
    showed [f] before them: what the last [displayFeedback] among them
    wrote, or [f] still. *)
Definition shownAfter (f : FeedbackElement) (l : list Call) : FeedbackElement :=
  fold_left
    (fun shown c =>
       match c with
       | DisplayFeedback message type => mkFeedback message (colourOf type)
       | _ => shown
       end)
    l f.

Definition applyError (e : JsError) : string :=
  "Error applying styles: " +:+ errorToString e.

Definition checkError (e : JsError) : string :=
  "Error checking for combo class: " +:+ errorToString e.

(** The styles [some] calls [getName] on, when [getName] fails as [fault]
    says: up to the first whose [getName] throws or whose name matches. *)
Fixpoint asked (fault : Style -> option JsError) (name : string) (l : list Style) : list Style :=
  match l with
  | [] => []
  | s :: l' =>
      s :: match fault s with
           | Some _ => []
           | None => if bool_decide (style_name s = name) then [] else asked fault name l'
           end
  end.

(** What the search comes to. *)
Fixpoint searched (fault : Style -> option JsError) (name : string) (l : list Style)
  : Completion bool :=
  match l with
  | [] => Normal false
  | s :: l' =>
      match fault s with
      | Some e => Throw e
      | None => if bool_decide (style_name s = name) then Normal true else searched fault name l'
      end
  end.

(** A style of [l] that [some] reaches: every style before it answers
    [getName] with another name. *)
Definition reached (fault : Style -> option JsError) (name : string) (before : list Style) : Prop :=
  Forall (fun s => fault s = None /\ style_name s <> name) before.

(** The calls that create or change something in the host. *)
Definition isWrite (c : Call) : bool :=
  match c with
  | CreateStyle _ | SetProperties _ _ | StyleSave _ | SetStyles _ | ElementSave => true
  | _ => false
  end.

(** A host whose [getStyles()] hands back the array itself. *)
Definition arrayWorld : World :=
  mkWorld (mkWebflow (Some heroElement) [mkStyle "hero" ∅] false noFaults) blankPage [].

(** The host is unreachable: [getSelectedElement()] rejects. *)
Definition offline : JsError := mkError "Error" "Designer is not responding".

Definition offlineWorld : World :=
  mkWorld
    (mkWebflow (Some heroElement) [mkStyle "hero" ∅] false
       (mkFaults (Some offline) None None None None None None (fun _ => None)))
    blankPage [].

(** Saving the element is rejected. *)
Definition elementRejectingWorld : World :=
  mkWorld
    (mkWebflow (Some heroElement) [mkStyle "hero" ∅] false
       (mkFaults None None None None None (Some rejected) None (fun _ => None)))
    blankPage [].

(** Attaching the style is rejected. *)
Definition attachRejectingWorld : World :=
  mkWorld
    (mkWebflow (Some heroElement) [mkStyle "hero" ∅] false
       (mkFaults None None None None (Some rejected) None None (fun _ => None)))
    blankPage [].

(** [getStyles()] throws. *)
Definition stylesRejectingWorld : World :=
  mkWorld
    (mkWebflow (Some heroElement) [mkStyle "hero" ∅] false
       (mkFaults None None None None None None (Some rejected) (fun _ => None)))
    blankPage [].

(** An element with three styles; [getName] throws on the last. *)
Definition cardStyles : list Style :=
  [mkStyle "card" ∅; mkStyle "hero" ∅; mkStyle "broken" ∅].

Definition brokenName (s : Style) : option JsError :=
  if bool_decide (style_name s = "broken") then Some rejected else None.

Definition cardWorld : World :=
  mkWorld
    (mkWebflow (Some (mkElement (Some cardStyles) None)) [] false
       (mkFaults None None None None None None None brokenName))
    blankPage [].

(** The page without its font-family dropdown. *)
Definition noFontsPage : Document :=
  mkDocument (mkFeedback "" "") (mkSelect [] "16px") (mkInput "") (mkSelect [] "#000000")
    None (mkInput "hero") true true.

Definition noFontsWorld : World :=
  mkWorld (mkWebflow (Some heroElement) [mkStyle "hero" ∅] false noFaults) noFontsPage [].

(** The page with a valid hex colour typed in, on a host without faults. *)
Definition redWorld : World :=
  mkWorld (mkWebflow (Some heroElement) [mkStyle "hero" ∅] false noFaults) redPage [].

(** * Properties *)

(** ** Strings and thrown values *)

Lemma append_cons (c : ascii) (s t : string) : String c s +:+ t = String c (s +:+ t).
Proof. reflexivity. Qed.

Lemma append_nil_l (s : string) : "" +:+ s = s.
Proof. reflexivity. Qed.

Lemma append_nil_r (s : string) : s +:+ "" = s.
Proof.
  induction s as [|c s IH]; [reflexivity|].
  now rewrite append_cons, IH.
Qed.

Lemma append_assoc (a b c : string) : (a +:+ b) +:+ c = a +:+ b +:+ c.
Proof.
  induction a as [|x a IH]; [reflexivity|].
  now rewrite !append_cons, IH.
Qed.

Lemma Contains_refl (s : string) : Contains s s.
Proof. exists "", "". now rewrite append_nil_l, append_nil_r. Qed.

Lemma Contains_empty (s : string) : Contains "" s.
Proof. exists "", s. reflexivity. Qed.

Lemma Contains_prepend (p sub s : string) : Contains sub s -> Contains sub (p +:+ s).
Proof.
  intros (pre & post & ->). exists (p +:+ pre), post.
  now rewrite append_assoc.
Qed.

Lemma Contains_append (sub s q : string) : Contains sub s -> Contains sub (s +:+ q).
Proof.
  intros (pre & post & ->). exists pre, (post +:+ q).
  now rewrite !append_assoc.
Qed.

Lemma errorToString_contains_message (e : JsError) :
  Contains (err_message e) (errorToString e).
Proof.
  unfold errorToString.
  destruct (decide (err_name e = "")); [apply Contains_refl|].
  destruct (decide (err_message e = "")) as [->|]; [apply Contains_empty|].
  apply Contains_prepend, Contains_prepend, Contains_refl.
Qed.

(** ** The regular-expression matcher decides the denotation *)

Module RegExpFacts.
Import RegExp.

Lemma append_eq_nil (s1 s2 : string) : s1 +:+ s2 = "" -> s1 = "" /\ s2 = "".
Proof. destruct s1; [auto | discriminate]. Qed.

Lemma Matches_Void (s : string) : ~ Matches Void s.
Proof. intros H. inversion H. Qed.

Lemma Matches_Eps (s : string) : Matches Eps s <-> s = "".
Proof. split; [intros H; now inversion H | intros ->; constructor]. Qed.

Lemma Matches_Alt (r1 r2 : regex) (s : string) :
  Matches (Alt r1 r2) s <-> Matches r1 s \/ Matches r2 s.
Proof.
  split.
  - intros H. inversion H; subst; auto.
  - intros [H|H]; [now apply MAltL | now apply MAltR].
Qed.

Lemma Matches_Seq (r1 r2 : regex) (s : string) :
  Matches (Seq r1 r2) s <->
  exists s1 s2, s = s1 +:+ s2 /\ Matches r1 s1 /\ Matches r2 s2.
Proof.
  split.
  - intros H. inversion H; subst. eauto.
  - intros (s1 & s2 & -> & H1 & H2). now constructor.
Qed.

Lemma nullable_Matches (r : regex) : nullable r = true <-> Matches r "".
Proof.
  split.
  - induction r as [| | | |r1 IH1 r2 IH2|r1 IH1 r2 IH2]; simpl; try discriminate.
    + constructor.
    + intros [H1 H2]%andb_true_iff.
      change "" with ("" +:+ ""). constructor; auto.
    + intros [H|H]%orb_true_iff; [apply MAltL | apply MAltR]; auto.
  - intros H. remember "" as s eqn:Es.
    induction H as [| | |r1 r2 s1 s2 _ IH1 _ IH2| |]; simpl; try discriminate; auto.
    + apply append_eq_nil in Es as [-> ->]. now rewrite IH1, IH2.
    + now rewrite IHMatches.
    + rewrite IHMatches by assumption. apply orb_true_r.
Qed.

Lemma deriv_Matches (c : ascii) (r : regex) (s : string) :
  Matches (deriv c r) s <-> Matches r (String c s).
Proof.
  split.
  - revert s.
    induction r as [| |d|rs|r1 IH1 r2 IH2|r1 IH1 r2 IH2]; intros s; simpl.
    + intros H. now apply Matches_Void in H.
    + intros H. now apply Matches_Void in H.
    + destruct (decide (c = d)) as [->|_]; intros H.
      * apply Matches_Eps in H as ->. constructor.
      * now apply Matches_Void in H.
    + destruct (in_class rs c) eqn:E; intros H.
      * apply Matches_Eps in H as ->. now constructor.
      * now apply Matches_Void in H.
    + assert (Hseq : Matches (Seq (deriv c r1) r2) s -> Matches (Seq r1 r2) (String c s)).
      { intros (s1 & s2 & -> & H1 & H2)%Matches_Seq.
        rewrite <- append_cons. constructor; auto. }
      destruct (nullable r1) eqn:E; [|exact Hseq].
      intros [H|H]%Matches_Alt; [now apply Hseq|].
      rewrite <- (append_nil_l (String c s)).
      constructor; [now apply nullable_Matches | auto].
    + intros [H|H]%Matches_Alt; [apply MAltL | apply MAltR]; auto.
  - intros H. remember (String c s) as t eqn:Et. revert s Et.
    induction H as [|d|rs d Hd|r1 r2 s1 s2 H1 IH1 H2 IH2|r1 r2 t H IH|r1 r2 t H IH];
      intros s Et; simpl.
    + discriminate.
    + injection Et as -> <-. rewrite decide_True by reflexivity. constructor.
    + injection Et as -> <-. rewrite Hd. constructor.
    + destruct s1 as [|c1 s1].
      * rewrite append_nil_l in Et.
        apply nullable_Matches in H1. rewrite H1.
        apply MAltR. now apply IH2.
      * rewrite append_cons in Et. injection Et as -> <-.
        assert (Matches (Seq (deriv c r1) r2) (s1 +:+ s2))
          by (constructor; [now apply IH1 | assumption]).
        destruct (nullable r1); [now apply MAltL | assumption].
    + apply MAltL. now apply IH.
    + apply MAltR. now apply IH.
Qed.

(** [test] answers whether the whole string matches. *)
Theorem test_Matches (r : regex) (s : string) : test r s = true <-> Matches r s.
Proof.
  revert r. induction s as [|c s IH]; intros r; simpl.
  - apply nullable_Matches.
  - rewrite IH. apply deriv_Matches.
Qed.

Lemma Matches_Class (rs : list (ascii * ascii)) (s : string) :
  Matches (Class rs) s <-> exists c, s = String c "" /\ in_class rs c = true.
Proof.
  split.
  - intros H. inversion H; subst. eauto.
  - intros (c & -> & H). now constructor.
Qed.

Lemma Matches_Chr (c : ascii) (s : string) : Matches (Chr c) s <-> s = String c "".
Proof. split; [intros H; now inversion H | intros ->; constructor]. Qed.

Lemma Matches_Rep_Class (rs : list (ascii * ascii)) (n : nat) (s : string) :
  Matches (Rep (Class rs) n) s <-> String.length s = n /\ allIn rs s = true.
Proof.
  revert s. induction n as [|n IH]; intros s; simpl.
  - rewrite Matches_Eps. split.
    + now intros ->.
    + intros [H _]. now destruct s.
  - rewrite Matches_Seq. split.
    + intros (s1 & s2 & -> & (c & -> & Hc)%Matches_Class & H2%IH).
      rewrite append_cons, append_nil_l. simpl. rewrite Hc.
      destruct H2 as [-> ->]. auto.
    + destruct s as [|c s]; [now intros [? _]|]. simpl.
      intros [Hn [Hc Hs]%andb_true_iff]. exists (String c ""), s.
      split; [reflexivity|]. split.
      * now constructor.
      * apply IH. split; [lia | assumption].
Qed.

End RegExpFacts.

Lemma in_class_hexDigit (c : ascii) :
  RegExp.in_class [("A", "F"); ("a", "f"); ("0", "9")]%char c = isHexDigit c.
Proof.
  unfold RegExp.in_class, RegExp.in_range, isHexDigit. cbn [existsb fst snd].
  change (N_of_ascii "A") with 65%N. change (N_of_ascii "F") with 70%N.
  change (N_of_ascii "a") with 97%N. change (N_of_ascii "f") with 102%N.
  change (N_of_ascii "0") with 48%N. change (N_of_ascii "9") with 57%N.
  now rewrite orb_false_r, orb_assoc.
Qed.

Lemma allIn_hexDigit (s : string) :
  allIn [("A", "F"); ("a", "f"); ("0", "9")]%char s = allHex s.
Proof.
  induction s as [|c s IH]; [reflexivity|].
  cbn [allIn allHex]. now rewrite in_class_hexDigit, IH.
Qed.

(** The pattern of [getFontColorValue] matches exactly the hash sign
    followed by six or three hexadecimal digits. *)
Lemma hexColorPattern_HexColor (s : string) :
  RegExp.Matches hexColorPattern s <-> HexColor s.
Proof.
  unfold hexColorPattern, HexColor, hexDigit.
  rewrite RegExpFacts.Matches_Seq. split.
  - intros (s1 & s2 & -> & ->%RegExpFacts.Matches_Chr & H).
    exists s2. split; [reflexivity|].
    apply RegExpFacts.Matches_Alt in H as [H|H];
      apply RegExpFacts.Matches_Rep_Class in H as [Hn Hs];
      rewrite allIn_hexDigit in Hs; auto.
  - intros (digits & -> & Hn & Hs). exists (String "#" ""), digits.
    split; [reflexivity|]. split; [constructor|].
    apply RegExpFacts.Matches_Alt.
    destruct Hn as [Hn|Hn]; [left | right];
      apply RegExpFacts.Matches_Rep_Class; now rewrite allIn_hexDigit.
Qed.

Lemma truthy_nonempty (s : string) : truthy s = true <-> s <> "".
Proof. destruct s; simpl; split; congruence. Qed.

(** C5.  The colour resolver: a non-empty hex input that matches
    [^#([A-Fa-f0-9]{6}|[A-Fa-f0-9]{3})$] is returned verbatim; for every
    other hex input, the empty one included, the dropdown value is returned
    unchanged, whatever it is.  [getFontColorValue] is a total function to
    strings: it returns one on every page and throws on none. *)
Theorem getFontColorValue_resolves (d : Document) :
  let hexInput := in_value (fontColorHex d) in
  let dropdownValue := sel_value (fontColorDropdown d) in
  (hexInput <> "" /\ RegExp.Matches hexColorPattern hexInput ->
   getFontColorValue d = hexInput) /\
  (~ (hexInput <> "" /\ RegExp.Matches hexColorPattern hexInput) ->
   getFontColorValue d = dropdownValue) /\
  (hexInput = "" -> getFontColorValue d = dropdownValue) /\
  (getFontColorValue d = hexInput \/ getFontColorValue d = dropdownValue).
Proof.
  intros hexInput dropdownValue. unfold getFontColorValue.
  fold hexInput dropdownValue.
  destruct (truthy hexInput && RegExp.test hexColorPattern hexInput) eqn:E.
  - apply andb_true_iff in E as [Ht Hm].
    apply truthy_nonempty in Ht. apply RegExpFacts.test_Matches in Hm.
    repeat split; auto; intros; tauto.
  - repeat split; auto.
    intros [Ht Hm]. apply truthy_nonempty in Ht. apply RegExpFacts.test_Matches in Hm.
    now rewrite Ht, Hm in E.
Qed.

(** ** Running a handler *)

Lemma newCalls_extend (w w' : World) (l : list Call) :
  calls w' = calls w ++ l -> newCalls w w' = l.
Proof. unfold newCalls. intros ->. apply drop_app_length. Qed.

(** Open a world into its fields, put the hypotheses on them to use and run
    the handler on what results. *)
Ltac exec w :=
  destruct w as [[sel site async [fGet fCreate fProps fSave fSet fElem fStyles fName]] doc log];
  simpl in *; subst; simpl in *; subst;
  unfold outcome, after, newCalls;
  cbv [applyStyles checkComboClass some bind ret throw try_catch record failing
       update_webflow getSelectedElement createStyle setProperties style_save
       read_styles setStyles element_save getStyles displayFeedback
       set_selected set_site_styles];
  simpl; rewrite <- ?app_assoc; simpl; rewrite ?drop_app_length.

Lemma applyStyles_no_selection (styleObject : gmap string string) (styleName : string) (w : World) :
  getSelectedElement_fault (faults (webflow w)) = None ->
  selected (webflow w) = None ->
  applyStyles styleObject styleName w = (Normal tt, noSelectionWorld w).
Proof. intros Hf Hs. unfold noSelectionWorld. exec w. reflexivity. Qed.

Ltac distinct_calls :=
  repeat (apply NoDup_cons_2;
          [rewrite ?not_elem_of_cons; repeat split; try discriminate; apply not_elem_of_nil|]);
  apply NoDup_nil_2.

(** ** The object the submit handler builds *)

Lemma styleObjectOf_properties (fontSize fontColor fontFamily : string) :
  let o := styleObjectOf fontSize fontColor fontFamily in
  o !! "font-size" = Some fontSize /\
  o !! "color" = Some fontColor /\
  o !! "font-family" = Some fontFamily /\
  dom o = {[ "font-size"; "color"; "font-family" ]}.
Proof.
  unfold styleObjectOf. cbn zeta. split; [|split; [|split]].
  - now rewrite !lookup_insert_ne, lookup_insert_eq by discriminate.
  - now rewrite lookup_insert_ne, lookup_insert_eq by discriminate.
  - now rewrite lookup_insert_eq.
  - rewrite !dom_insert_L, dom_empty_L. set_solver.
Qed.

(** ** The style applier *)

(** C4.  With no element selected, [applyStyles] asks the host for the
    selection and nothing else: it creates no style and saves nothing,
    leaves the host as it was, reports exactly one error and returns
    normally. *)
Theorem applyStyles_without_selection
    (styleObject : gmap string string) (styleName : string) (w : World) :
  hostReturns w None ->
  let w' := after (applyStyles styleObject styleName) w in
  outcome (applyStyles styleObject styleName) w = Normal tt /\
  newCalls w w' =
    [GetSelectedElement; DisplayFeedback "No element is currently selected." KError] /\
  existsb isCreation (newCalls w w') = false /\
  existsb isPersistence (newCalls w w') = false /\
  existsb isElementWrite (newCalls w w') = false /\
  List.filter isFeedback (newCalls w w') =
    [DisplayFeedback "No element is currently selected." KError] /\
  webflow w' = webflow w /\
  feedbackMessage (document w') = mkFeedback "No element is currently selected." "red".
Proof.
  intros [Hf Hs] w'. subst w'. unfold outcome, after.
  rewrite (applyStyles_no_selection _ _ _ Hf Hs). cbn [fst snd].
  assert (Hc : newCalls w (noSelectionWorld w) =
    [GetSelectedElement; DisplayFeedback "No element is currently selected." KError])
    by (now apply newCalls_extend).
  rewrite Hc. now repeat split.
Qed.

(** C3.  With an element selected that has a styles collection and every
    host call succeeding, [applyStyles] creates one style under the given
    name, gives it exactly the properties of [styleObject], saves it to the
    site, makes it the only style of the element, saves the element and
    reports exactly one success.  For the object the submit handler builds
    these properties are [font-size], [color] and [font-family] and no
    other. *)
Theorem applyStyles_applies
    (styleObject : gmap string string) (styleName : string) (w : World)
    (el : Element) (old : list Style) :
  hostReturns w (Some el) ->
  el_styles el = Some old ->
  styleSaved w ->
  elementSaved w ->
  let w' := after (applyStyles styleObject styleName) w in
  let myStyle := mkStyle styleName styleObject in
  outcome (applyStyles styleObject styleName) w = Normal tt /\
  newCalls w w' =
    [GetSelectedElement; CreateStyle styleName; SetProperties styleName styleObject;
     StyleSave myStyle; ReadStyles; SetStyles [myStyle]; ElementSave;
     DisplayFeedback "Styles successfully applied!" KSuccess] /\
  site_styles (webflow w') = site_styles (webflow w) ++ [myStyle] /\
  selected (webflow w') = Some (mkElement (Some [myStyle]) (Some [myStyle])) /\
  List.filter isFeedback (newCalls w w') =
    [DisplayFeedback "Styles successfully applied!" KSuccess] /\
  feedbackMessage (document w') = mkFeedback "Styles successfully applied!" "green" /\
  (forall fontSize fontColor fontFamily,
     styleObject = styleObjectOf fontSize fontColor fontFamily ->
     style_properties myStyle !! "font-size" = Some fontSize /\
     style_properties myStyle !! "color" = Some fontColor /\
     style_properties myStyle !! "font-family" = Some fontFamily /\
     dom (style_properties myStyle) = {[ "font-size"; "color"; "font-family" ]}).
Proof.
  intros [Hf Hs] Hel (Hc & Hp & Hv) [Hset Hsave] w' myStyle. subst w' myStyle.
  assert (Hobj : forall fontSize fontColor fontFamily,
    styleObject = styleObjectOf fontSize fontColor fontFamily ->
    styleObject !! "font-size" = Some fontSize /\
    styleObject !! "color" = Some fontColor /\
    styleObject !! "font-family" = Some fontFamily /\
    dom styleObject = {[ "font-size"; "color"; "font-family" ]})
    by (intros fs fc ff ->; apply styleObjectOf_properties).
  destruct el as [st sv]. exec w.
  do 6 (split; [reflexivity|]). exact Hobj.
Qed.

(** C6.  With an element selected, whichever host call of [applyStyles]
    fails first (creating the style, setting its properties, saving it,
    attaching it or saving the element), the error is caught: the call
    returns normally, reports exactly one error whose text holds the
    error's message, and has issued no host call twice. *)
Theorem applyStyles_catches
    (styleObject : gmap string string) (styleName : string) (w : World)
    (el : Element) (e : JsError) :
  hostReturns w (Some el) ->
  FailsWith w el e ->
  caughtAndReported styleObject styleName w e.
Proof.
  intros [Hf Hs] Hfail. unfold caughtAndReported.
  assert (Hmsg : Contains (err_message e) ("Error applying styles: " +:+ errorToString e))
    by apply Contains_prepend, errorToString_contains_message.
  destruct el as [st sv].
  destruct Hfail as [H1|H1 H2|H1 H2 H3|(H1 & H2 & H3) [old Hold] H4|(H1 & H2 & H3) [old Hold] H4 H5];
    exec w; (repeat split; [exact Hmsg | distinct_calls]).
Qed.

(** C7.  With an element selected that has no styles collection, and the
    style created and saved without error, [applyStyles] returns normally
    without any feedback, success or error, and without touching or saving
    the element: the page and the element are as they were. *)
Theorem applyStyles_unsupported_element
    (styleObject : gmap string string) (styleName : string) (w : World) (el : Element) :
  hostReturns w (Some el) ->
  el_styles el = None ->
  styleSaved w ->
  let w' := after (applyStyles styleObject styleName) w in
  outcome (applyStyles styleObject styleName) w = Normal tt /\
  List.filter isFeedback (newCalls w w') = [] /\
  existsb isElementWrite (newCalls w w') = false /\
  selected (webflow w') = Some el /\
  document w' = document w.
Proof.
  intros [Hf Hs] Hel (Hc & Hp & Hv) w'. subst w'.
  destruct el as [st sv]. exec w. now repeat split.
Qed.

(** C10.  With an element selected and the style created and saved without
    error, the style is created, given the properties of [styleObject] and
    saved before [selectedElement.styles] is read, and it is in the site
    whatever happens afterwards.  When the element has no styles
    collection nothing follows the read: the site holds a style that no
    element carries, and the element is as it was. *)
Theorem applyStyles_saves_style_first
    (styleObject : gmap string string) (styleName : string) (w : World) (el : Element) :
  hostReturns w (Some el) ->
  styleSaved w ->
  let w' := after (applyStyles styleObject styleName) w in
  let myStyle := mkStyle styleName styleObject in
  (exists rest,
     newCalls w w' =
       [GetSelectedElement; CreateStyle styleName; SetProperties styleName styleObject;
        StyleSave myStyle; ReadStyles] ++ rest) /\
  site_styles (webflow w') = site_styles (webflow w) ++ [myStyle] /\
  (el_styles el = None ->
   newCalls w w' =
     [GetSelectedElement; CreateStyle styleName; SetProperties styleName styleObject;
      StyleSave myStyle; ReadStyles] /\
   selected (webflow w') = Some el /\
   myStyle ∈ site_styles (webflow w')).
Proof.
  intros [Hf Hs] (Hc & Hp & Hv) w' myStyle. subst w' myStyle.
  destruct el as [[old|] sv].
  - destruct (setStyles_fault (faults (webflow w))) as [e1|] eqn:E1;
      [|destruct (element_save_fault (faults (webflow w))) as [e2|] eqn:E2];
      exec w; (split; [eexists; reflexivity|]); (split; [reflexivity|]); discriminate.
  - exec w. split; [exists []; reflexivity|]. split; [reflexivity|].
    intros _. repeat split. apply elem_of_app. right. constructor.
Qed.

(** ** The font list *)

Lemma populate_fold (fs : list string) (d : Document) :
  fold_left populateStep fs d =
  set_fontFamilyDropdown
    ((fun dd =>
        mkSelect (sel_options dd ++ map createOption fs)
          (match sel_options dd, fs with
           | [], font :: _ => font
           | _, _ => sel_value dd
           end))
       <$> fontFamilyDropdown d) d.
Proof.
  revert d. induction fs as [|font fs IH]; intros d.
  - destruct d as [? ? ? ? [[[|o opts] v]|] ? ? ?]; cbn; now rewrite ?app_nil_r.
  - cbn [fold_left]. rewrite IH. unfold populateStep.
    destruct d as [? ? ? ? [[[|o opts] v]|] ? ? ?]; cbn; [| |reflexivity].
    + reflexivity.
    + unfold set_fontFamilyDropdown. cbn. now rewrite <- app_assoc.
Qed.

(** C8.  The font list is the six names Arial, Verdana, Helvetica, Times
    New Roman, Georgia, Courier New in that order.  Populating leaves the
    dropdown with the options it had followed by one new option per name,
    in that order, whose value and text are both the name.  A dropdown
    that had no option now has the first name, Arial, as its value; one
    that had options keeps its value.  No other control of the page
    changes, and a page without the dropdown does not change at all. *)
Theorem fonts_populate_dropdown (d : Document) :
  let d' := populateFontFamilyDropdown d in
  fonts = ["Arial"; "Verdana"; "Helvetica"; "Times New Roman"; "Georgia"; "Courier New"] /\
  length fonts = 6 /\
  sel_options <$> fontFamilyDropdown d' =
    (fun dd => sel_options dd ++ map (fun font => mkOption font font) fonts)
      <$> fontFamilyDropdown d /\
  sel_value <$> fontFamilyDropdown d' =
    (fun dd => match sel_options dd with [] => "Arial" | _ :: _ => sel_value dd end)
      <$> fontFamilyDropdown d /\
  length (map createOption fonts) = length fonts /\
  Forall (fun o => opt_value o = opt_textContent o) (map createOption fonts) /\
  feedbackMessage d' = feedbackMessage d /\
  fontSizeDropdown d' = fontSizeDropdown d /\
  fontColorHex d' = fontColorHex d /\
  fontColorDropdown d' = fontColorDropdown d /\
  comboClassInput d' = comboClassInput d /\
  submitStyles d' = submitStyles d /\
  checkComboClassButton d' = checkComboClassButton d.
Proof.
  intros d'. subst d'. unfold populateFontFamilyDropdown. rewrite populate_fold.
  split; [reflexivity|]. split; [reflexivity|].
  split; [now destruct d as [? ? ? ? [[opts v]|] ? ? ?]|].
  split; [now destruct d as [? ? ? ? [[[|o opts] v]|] ? ? ?]|].
  split; [apply length_map|].
  split.
  { apply Forall_forall. intros o (font & -> & _)%list_elem_of_fmap. reflexivity. }
  now destruct d.
Qed.

(** ** The combo-class checker *)

Lemma array_some_names (name : string) (l : list Style) (w : World) :
  (forall s, getName_fault (faults (webflow w)) s = None) ->
  array_some (fun style => n <- getName style ;; ret (bool_decide (n = name))) l w =
  (Normal (existsb (fun s => bool_decide (style_name s = name)) l),
   mkWorld (webflow w) (document w) (calls w ++ map GetName (examined name l))).
Proof.
  intros Hn. revert w Hn. induction l as [|s l IH]; intros w Hn.
  - simpl. unfold ret. rewrite app_nil_r. now destruct w.
  - cbn [array_some]. unfold bind at 1. unfold getName, bind, record, failing, ret.
    cbn [webflow document calls]. rewrite Hn. cbn [existsb examined].
    destruct (bool_decide (style_name s = name)) eqn:E; cbn [orb].
    + reflexivity.
    + rewrite IH by exact Hn. cbn [webflow document calls map].
      now rewrite <- app_assoc.
Qed.

Lemma existsb_name (name : string) (l : list Style) :
  existsb (fun s => bool_decide (style_name s = name)) l = true <->
  exists s, s ∈ l /\ style_name s = name.
Proof.
  rewrite existsb_exists. split.
  - intros (s & Hin & H%bool_decide_eq_true). exists s. now rewrite list_elem_of_In.
  - intros (s & Hin & H). exists s. rewrite <- list_elem_of_In.
    split; [assumption | now apply bool_decide_eq_true].
Qed.

Lemma comboExists_contains (name : string) : Contains name (comboExists name).
Proof. exists ("Combo class " +:+ dquote), (dquote +:+ " exists."). now rewrite append_assoc. Qed.

Lemma comboMissing_contains (name : string) : Contains name (comboMissing name).
Proof.
  exists ("Combo class " +:+ dquote), (dquote +:+ " does not exist."). now rewrite append_assoc.
Qed.

Lemma filter_isFeedback_GetName (l : list Style) (rest : list Call) :
  List.filter isFeedback (map GetName l ++ rest) = List.filter isFeedback rest.
Proof. induction l as [|s l IH]; simpl; auto. Qed.

Lemma bind_Normal {A B} (m : M A) (k : A -> M B) (w w' : World) (a : A) :
  m w = (Normal a, w') -> bind m k w = k a w'.
Proof. unfold bind. now intros ->. Qed.

Lemma try_catch_Normal {A} (body : M A) (handler : JsError -> M A) (w w' : World) (a : A) :
  body w = (Normal a, w') -> try_catch body handler w = (Normal a, w').
Proof. unfold try_catch. now intros ->. Qed.

Lemma getSelectedElement_resolves (w : World) (sel : option Element) :
  hostReturns w sel ->
  getSelectedElement w =
  (Normal sel, mkWorld (webflow w) (document w) (calls w ++ [GetSelectedElement])).
Proof.
  intros [Hf Hs]. unfold getSelectedElement, bind, record, failing.
  simpl. rewrite Hf. simpl. now rewrite Hs.
Qed.

Lemma getStyles_array (w : World) (el : Element) :
  selected (webflow w) = Some el ->
  getStyles_async (webflow w) = false ->
  getStyles_fault (faults (webflow w)) = None ->
  getStyles w =
  (Normal (ArrayOf (default [] (el_styles el))),
   mkWorld (webflow w) (document w) (calls w ++ [GetStyles])).
Proof.
  intros Hs Ha Hg. unfold getStyles, bind, record, failing.
  simpl. rewrite Hg. simpl. now rewrite Ha, Hs.
Qed.

(** X21.  On a host whose [getStyles()] hands back the array itself and whose
    calls succeed, the checker does what C1 says: one success naming the
    class when a style of the element carries the name, one error naming
    it otherwise, wherever in the collection the style stands. *)
Lemma checkComboClass_array (name : string) (w : World) (el : Element) :
  hostReturns w (Some el) ->
  getStyles_async (webflow w) = false ->
  getStyles_fault (faults (webflow w)) = None ->
  (forall s, getName_fault (faults (webflow w)) s = None) ->
  let w' := after (checkComboClass name) w in
  outcome (checkComboClass name) w = Normal tt /\
  ((exists s, s ∈ default [] (el_styles el) /\ style_name s = name) ->
   List.filter isFeedback (newCalls w w') = [DisplayFeedback (comboExists name) KSuccess]) /\
  (~ (exists s, s ∈ default [] (el_styles el) /\ style_name s = name) ->
   List.filter isFeedback (newCalls w w') = [DisplayFeedback (comboMissing name) KError]).
Proof.
  intros Hsel Ha Hg Hn w'. subst w'.
  pose proof (getSelectedElement_resolves w (Some el) Hsel) as E1.
  destruct Hsel as [Hf Hs].
  set (w1 := mkWorld (webflow w) (document w) (calls w ++ [GetSelectedElement])) in E1.
  assert (E2 : getStyles w1 =
    (Normal (ArrayOf (default [] (el_styles el))),
     mkWorld (webflow w) (document w) (calls w1 ++ [GetStyles])))
    by exact (getStyles_array w1 el Hs Ha Hg).
  set (w2 := mkWorld (webflow w) (document w) (calls w1 ++ [GetStyles])) in E2.
  pose proof (array_some_names name (default [] (el_styles el)) w2 Hn) as E3.
  set (b := existsb _ _) in E3.
  assert (E : checkComboClass name w =
    displayFeedback (if b then comboExists name else comboMissing name)
      (if b then KSuccess else KError)
      (mkWorld (webflow w) (document w)
         (calls w ++ [GetSelectedElement; GetStyles]
            ++ map GetName (examined name (default [] (el_styles el)))))).
  { unfold checkComboClass. rewrite (bind_Normal _ _ _ _ _ E1).
    assert (Hbody : forall h, try_catch
      (styles <- getStyles ;;
       hasComboClass <-
         some styles (fun style =>
           n <- getName style ;; ret (bool_decide (n = name))) ;;
       if hasComboClass then displayFeedback (comboExists name) KSuccess
       else displayFeedback (comboMissing name) KError) h w1 =
      displayFeedback (if b then comboExists name else comboMissing name)
        (if b then KSuccess else KError)
        (mkWorld (webflow w) (document w)
           (calls w ++ [GetSelectedElement; GetStyles]
              ++ map GetName (examined name (default [] (el_styles el)))))).
    { intros h. unfold try_catch.
      rewrite (bind_Normal _ _ _ _ _ E2). cbn [some].
      rewrite (bind_Normal _ _ _ _ _ E3).
      subst w2 w1. cbn [webflow document calls].
      rewrite <- !app_assoc. cbn [app].
      now destruct b. }
    apply Hbody. }
  unfold outcome, after, newCalls. rewrite E. unfold displayFeedback.
  cbn [fst snd calls]. rewrite <- !app_assoc, drop_app_length.
  cbn [app List.filter isFeedback]. rewrite filter_isFeedback_GetName.
  split; [reflexivity|]. subst b. split.
  - intros Hyes%existsb_name. now rewrite Hyes.
  - intros Hno. destruct (existsb _ _) eqn:Eb; [|reflexivity].
    exfalso. apply Hno. now apply existsb_name.
Qed.

(** X22.  On a host whose [getStyles()] hands back a promise, as the [Element]
    interface of [index.ts] declares, the checker never looks at a style:
    [styles.some] throws and the handler reports that error, whatever the
    element carries. *)
Lemma checkComboClass_promise (name : string) (w : World) (el : Element) :
  hostReturns w (Some el) ->
  getStyles_async (webflow w) = true ->
  getStyles_fault (faults (webflow w)) = None ->
  outcome (checkComboClass name) w = Normal tt /\
  newCalls w (after (checkComboClass name) w) =
    [GetSelectedElement; GetStyles;
     DisplayFeedback
       "Error checking for combo class: TypeError: styles.some is not a function" KError].
Proof.
  intros [Hf Hs] Ha Hg. exec w. now split.
Qed.

(** C1.  At [heroWorld] the selected element carries a style named [hero],
    yet [checkComboClass "hero"] reports an error and no success: the
    promise is searched, not the collection it resolves to. *)
Theorem checkComboClass_unawaited_promise :
  hostReturns heroWorld (Some heroElement) /\
  (exists s, s ∈ default [] (el_styles heroElement) /\ style_name s = "hero") /\
  outcome (checkComboClass "hero") heroWorld = Normal tt /\
  calls (after (checkComboClass "hero") heroWorld) =
    [GetSelectedElement; GetStyles;
     DisplayFeedback
       "Error checking for combo class: TypeError: styles.some is not a function" KError] /\
  existsb isSuccess (calls (after (checkComboClass "hero") heroWorld)) = false.
Proof.
  split; [now split|]. split.
  - exists (mkStyle "hero" ∅). split; [constructor | reflexivity].
  - now repeat split.
Qed.

(** ** The style counter across a session *)

Lemma click_generated (c : N) (w : World) :
  generated (click c w) =
  match fontFamilyDropdown (document w) with
  | Some _ => Some (dynamicStyle c)
  | None => None
  end.
Proof.
  unfold click, onSubmitClick, prepareSubmit.
  destruct (fontFamilyDropdown (document w)); [|reflexivity].
  now destruct (applyStyles _ _ w).
Qed.

Lemma click_counter_after (c : N) (w : World) :
  counter_after (click c w) =
  match fontFamilyDropdown (document w) with
  | Some _ => increment c
  | None => c
  end.
Proof.
  unfold click, onSubmitClick, prepareSubmit.
  destruct (fontFamilyDropdown (document w)); [|reflexivity].
  now destruct (applyStyles _ _ w).
Qed.

Lemma increment_le (c : N) : (c <= increment c)%N.
Proof. unfold increment. destruct (N.ltb_spec c maxExact); lia. Qed.

Lemma increment_min (c : N) : (c <= maxExact)%N -> increment c = N.min (c + 1) maxExact.
Proof. unfold increment. destruct (N.ltb_spec c maxExact); lia. Qed.

Lemma increment_bounded (c : N) : (c <= maxExact)%N -> (increment c <= maxExact)%N.
Proof. intros H. rewrite increment_min by assumption. lia. Qed.

Lemma generatedNames_cons (c : Click) (cs : list Click) :
  generatedNames (c :: cs) =
  match generated c with
  | Some name => name :: generatedNames cs
  | None => generatedNames cs
  end.
Proof. reflexivity. Qed.

Lemma nameAt_increment (c : N) (i : nat) :
  (c <= maxExact)%N -> nameAt (increment c) i = nameAt c (S i).
Proof.
  intros H. unfold nameAt. f_equal. rewrite increment_min by assumption. lia.
Qed.

Lemma generatedNames_closed (c : N) (clicks : list World) :
  (c <= maxExact)%N ->
  generatedNames (session c clicks) =
  map (nameAt c) (seq 0 (length (generatedNames (session c clicks)))).
Proof.
  revert c. induction clicks as [|w clicks IH]; intros c Hc; [reflexivity|].
  cbn [session]. rewrite generatedNames_cons, click_generated, click_counter_after.
  destruct (fontFamilyDropdown (document w)) as [dd|].
  - cbn [length seq map]. f_equal.
    + unfold nameAt. f_equal. lia.
    + rewrite (IH (increment c)) at 1 by now apply increment_bounded.
      rewrite <- fmap_S_seq. rewrite <- list_fmap_compose.
      apply list_fmap_ext. intros _ i _. now apply nameAt_increment.
  - now apply IH.
Qed.

Lemma counterAfter_closed (c : N) (clicks : list World) :
  (c <= maxExact)%N ->
  counterAfter c clicks =
  N.min (c + N.of_nat (length (generatedNames (session c clicks)))) maxExact.
Proof.
  revert c. induction clicks as [|w clicks IH]; intros c Hc.
  - simpl. lia.
  - cbn [counterAfter session].
    rewrite generatedNames_cons, click_generated, click_counter_after.
    destruct (fontFamilyDropdown (document w)) as [dd|].
    + rewrite IH by now apply increment_bounded.
      cbn [length]. rewrite increment_min by assumption. lia.
    + now apply IH.
Qed.

Lemma counterAfter_app (c : N) (before rest : list World) :
  counterAfter c (before ++ rest) = counterAfter (counterAfter c before) rest.
Proof. revert c. induction before as [|w before IH]; intros c; simpl; auto. Qed.

Lemma counterAfter_le (c : N) (clicks : list World) : (c <= counterAfter c clicks)%N.
Proof.
  revert c. induction clicks as [|w clicks IH]; intros c; simpl; [lia|].
  etrans; [|apply IH]. rewrite click_counter_after.
  destruct (fontFamilyDropdown (document w)); [apply increment_le | lia].
Qed.

Lemma dynamicStyle_inj (a b : N) : dynamicStyle a = dynamicStyle b -> a = b.
Proof.
  unfold dynamicStyle, numberToString. intros H.
  apply (inj (String.append "dynamicStyle")) in H. now apply (inj pretty) in H.
Qed.

Lemma maxExact_nonneg : (0 <= maxExact)%N.
Proof. lia. Qed.

Lemma length_generatedNames_replicate (c : N) (n : nat) (w : World) :
  is_Some (fontFamilyDropdown (document w)) ->
  length (generatedNames (session c (replicate n w))) = n.
Proof.
  intros [dd Hdd]. revert c. induction n as [|n IH]; intros c; [reflexivity|].
  cbn [replicate session]. rewrite generatedNames_cons, click_generated, Hdd.
  cbn [length]. now rewrite IH.
Qed.

(** C2, as stated, fails at a session of one click with nothing selected:
    no apply has succeeded, and the next name is [dynamicStyle1], not
    [dynamicStyle0]. *)
Lemma counter_counts_failed_click :
  successes (session 0 [lonelyWorld]) = 0 /\
  generatedNames (session 0 [lonelyWorld]) = ["dynamicStyle0"] /\
  dynamicStyle (counterAfter 0 [lonelyWorld]) = "dynamicStyle1" /\
  dynamicStyle (counterAfter 0 [lonelyWorld]) <>
    dynamicStyle (N.of_nat (successes (session 0 [lonelyWorld]))).
Proof. repeat split. vm_compute. discriminate. Qed.

(** C2, amended.  The counter is [0] after [DOMContentLoaded].  A click on
    the submit button increments it exactly once when the click generates
    a name, which it does exactly when the page has its font-family
    dropdown, and leaves it alone otherwise; whether the apply that
    follows succeeds, fails or exits early plays no part.  So after [k]
    naming clicks, [k] at most [2^53], the counter is [k], the names
    generated so far are [dynamicStyle0] to [dynamicStyle<k-1>] in order
    and the next click generates [dynamicStyle<k>]. *)
Theorem counter_counts_naming_clicks (w0 : World) (clicks : list World) :
  let start := styleCounter (fst (DOMContentLoaded w0)) in
  let k := length (generatedNames (session start clicks)) in
  start = 0%N /\
  (forall c w,
     counter_after (click c w) =
     match generated (click c w) with Some _ => increment c | None => c end) /\
  (forall c w,
     is_Some (generated (click c w)) <-> is_Some (fontFamilyDropdown (document w))) /\
  (forall c, (c < maxExact)%N -> increment c = (c + 1)%N) /\
  ((N.of_nat k <= maxExact)%N ->
   counterAfter start clicks = N.of_nat k /\
   generatedNames (session start clicks) =
     map (fun i => dynamicStyle (N.of_nat i)) (seq 0 k) /\
   forall w, is_Some (fontFamilyDropdown (document w)) ->
     generated (click (counterAfter start clicks) w) = Some (dynamicStyle (N.of_nat k))).
Proof.
  intros start k. subst start. cbn [DOMContentLoaded fst styleCounter] in *.
  split; [reflexivity|]. split.
  { intros c w. rewrite click_generated, click_counter_after.
    now destruct (fontFamilyDropdown (document w)). }
  split.
  { intros c w. rewrite click_generated.
    destruct (fontFamilyDropdown (document w)); split; intros [x Hx]; try discriminate; eauto. }
  split.
  { intros c Hc. unfold increment. apply N.ltb_lt in Hc. now rewrite Hc. }
  intros Hk.
  assert (Hcount : counterAfter 0 clicks = N.of_nat k).
  { rewrite counterAfter_closed by lia. fold k. lia. }
  split; [exact Hcount|]. split.
  - rewrite generatedNames_closed by lia. fold k.
    apply list_fmap_ext. intros n i [Hi Hn]%lookup_seq.
    unfold nameAt. f_equal. lia.
  - intros w [dd Hdd]. now rewrite click_generated, Hdd, Hcount.
Qed.

(** Two naming clicks that both find the counter at [2^53] generate the
    same name. *)
Lemma names_repeat_at_maxExact (w : World) (n i j : nat) :
  is_Some (fontFamilyDropdown (document w)) ->
  i <> j -> i < n -> j < n ->
  (maxExact <= N.of_nat i)%N -> (maxExact <= N.of_nat j)%N ->
  ~ NoDup (generatedNames (session 0 (replicate n w))).
Proof.
  intros Hdd Hij Hi Hj Hmi Hmj.
  rewrite generatedNames_closed by lia.
  rewrite length_generatedNames_replicate by exact Hdd.
  intros Hnd. apply Hij.
  assert (Hat : forall k, (maxExact <= N.of_nat k)%N -> k < n ->
            (nameAt 0 <$> seq 0 n) !! k = Some (dynamicStyle maxExact)).
  { intros k Hlo Hhi. rewrite list_lookup_fmap, lookup_seq_lt by exact Hhi.
    cbn [fmap option_fmap option_map]. unfold nameAt. do 2 f_equal. lia. }
  eapply NoDup_lookup; [exact Hnd | apply Hat | apply Hat]; assumption.
Qed.

(** The bound of [2^53 + 1] names is where the model of the counter stops
    giving fresh names: in a session of [2^53 + 2] clicks, more than any
    running session holds, the counter has stayed at [2^53] and the last
    two clicks both generate [dynamicStyle9007199254740992]. *)
Lemma names_repeat_past_maxExact :
  ~ NoDup (generatedNames (session 0 (replicate (N.to_nat (maxExact + 2)) lonelyWorld))).
Proof.
  apply (names_repeat_at_maxExact lonelyWorld _ (N.to_nat maxExact) (N.to_nat (maxExact + 1))).
  - eexists. reflexivity.
  - lia.
  - lia.
  - lia.
  - lia.
  - lia.
Qed.

(** C9.  Within one session, started by [DOMContentLoaded] with the
    counter at [0], the counter never decreases: no click lowers it, and
    after any further clicks it is at least what it was.  No two names
    generated within the session are equal, the session being one that a
    running page can hold: it generates at most [2^53 + 1] names, as many
    as a JavaScript number counts one by one. *)
Theorem counter_monotone_names_distinct (w0 : World) (clicks : list World) :
  let start := styleCounter (fst (DOMContentLoaded w0)) in
  (forall c w, (c <= counter_after (click c w))%N) /\
  (forall before rest,
     clicks = before ++ rest ->
     (counterAfter start before <= counterAfter start clicks)%N) /\
  ((N.of_nat (length (generatedNames (session start clicks))) <= maxExact + 1)%N ->
   NoDup (generatedNames (session start clicks))).
Proof.
  intros start. subst start. cbn [DOMContentLoaded fst styleCounter]. split.
  { intros c w. rewrite click_counter_after.
    destruct (fontFamilyDropdown (document w)); [apply increment_le | lia]. }
  split.
  - intros before rest ->. rewrite counterAfter_app. apply counterAfter_le.
  - intros Hk. rewrite generatedNames_closed by lia.
    apply NoDup_fmap_2_strong; [|apply NoDup_seq].
    intros i j Hi%elem_of_seq Hj%elem_of_seq Heq.
    apply dynamicStyle_inj in Heq. lia.
Qed.

(** ** The theorems at work on concrete pages and hosts *)

Lemma getFontColorValue_resolves_witness :
  (in_value (fontColorHex redPage) <> "" /\
   RegExp.Matches hexColorPattern (in_value (fontColorHex redPage))) /\
  getFontColorValue redPage = "#FF0000" /\
  getFontColorValue blankPage = "#000000".
Proof.
  assert (H : in_value (fontColorHex redPage) <> "" /\
              RegExp.Matches hexColorPattern (in_value (fontColorHex redPage))).
  { split; [discriminate|]. apply RegExpFacts.test_Matches. reflexivity. }
  split; [exact H|]. split.
  - exact (proj1 (getFontColorValue_resolves redPage) H).
  - exact (proj1 (proj2 (proj2 (getFontColorValue_resolves blankPage))) eq_refl).
Defined.

Lemma applyStyles_without_selection_witness :
  hostReturns lonelyWorld None /\
  outcome (applyStyles exampleStyle "dynamicStyle0") lonelyWorld = Normal tt.
Proof.
  assert (H : hostReturns lonelyWorld None) by (split; reflexivity).
  split; [exact H|].
  exact (proj1 (applyStyles_without_selection exampleStyle "dynamicStyle0" lonelyWorld H)).
Defined.

Lemma applyStyles_applies_witness :
  hostReturns heroWorld (Some heroElement) /\
  styleSaved heroWorld /\ elementSaved heroWorld /\
  selected (webflow (after (applyStyles exampleStyle "dynamicStyle0") heroWorld)) =
    Some (mkElement (Some [mkStyle "dynamicStyle0" exampleStyle])
                    (Some [mkStyle "dynamicStyle0" exampleStyle])).
Proof.
  assert (H1 : hostReturns heroWorld (Some heroElement)) by (split; reflexivity).
  assert (H2 : styleSaved heroWorld) by (repeat split; reflexivity).
  assert (H3 : elementSaved heroWorld) by (split; reflexivity).
  split; [exact H1|]. split; [exact H2|]. split; [exact H3|].
  exact (proj1 (proj2 (proj2 (proj2
    (applyStyles_applies exampleStyle "dynamicStyle0" heroWorld heroElement
       [mkStyle "hero" ∅] H1 eq_refl H2 H3))))).
Defined.

Lemma applyStyles_catches_witness :
  hostReturns rejectingWorld (Some heroElement) /\
  FailsWith rejectingWorld heroElement rejected /\
  caughtAndReported exampleStyle "dynamicStyle0" rejectingWorld rejected.
Proof.
  assert (H1 : hostReturns rejectingWorld (Some heroElement)) by (split; reflexivity).
  assert (H2 : FailsWith rejectingWorld heroElement rejected)
    by (apply FailsAtStyleSave; reflexivity).
  split; [exact H1|]. split; [exact H2|].
  exact (applyStyles_catches exampleStyle "dynamicStyle0" rejectingWorld heroElement rejected H1 H2).
Defined.

Lemma applyStyles_unsupported_element_witness :
  hostReturns bareWorld (Some bareElement) /\
  el_styles bareElement = None /\
  styleSaved bareWorld /\
  List.filter isFeedback
    (newCalls bareWorld (after (applyStyles exampleStyle "dynamicStyle0") bareWorld)) = [].
Proof.
  assert (H1 : hostReturns bareWorld (Some bareElement)) by (split; reflexivity).
  assert (H2 : styleSaved bareWorld) by (repeat split; reflexivity).
  split; [exact H1|]. split; [reflexivity|]. split; [exact H2|].
  exact (proj1 (proj2
    (applyStyles_unsupported_element exampleStyle "dynamicStyle0" bareWorld bareElement
       H1 eq_refl H2))).
Defined.

Lemma applyStyles_saves_style_first_witness :
  hostReturns bareWorld (Some bareElement) /\
  styleSaved bareWorld /\
  site_styles (webflow (after (applyStyles exampleStyle "dynamicStyle0") bareWorld)) =
    site_styles (webflow bareWorld) ++ [mkStyle "dynamicStyle0" exampleStyle].
Proof.
  assert (H1 : hostReturns bareWorld (Some bareElement)) by (split; reflexivity).
  assert (H2 : styleSaved bareWorld) by (repeat split; reflexivity).
  split; [exact H1|]. split; [exact H2|].
  exact (proj1 (proj2
    (applyStyles_saves_style_first exampleStyle "dynamicStyle0" bareWorld bareElement H1 H2))).
Defined.

Lemma counter_counts_naming_clicks_witness :
  (N.of_nat (length (generatedNames
     (session (styleCounter (fst (DOMContentLoaded heroWorld))) threeClicks)))
   <= maxExact)%N /\
  counterAfter (styleCounter (fst (DOMContentLoaded heroWorld))) threeClicks = 3%N.
Proof.
  assert (H : (N.of_nat (length (generatedNames
     (session (styleCounter (fst (DOMContentLoaded heroWorld))) threeClicks)))
   <= maxExact)%N) by (vm_compute; discriminate).
  split; [exact H|].
  exact (proj1 (proj2 (proj2 (proj2 (proj2
    (counter_counts_naming_clicks heroWorld threeClicks)))) H)).
Defined.

Lemma counter_monotone_names_distinct_witness :
  (N.of_nat (length (generatedNames
     (session (styleCounter (fst (DOMContentLoaded heroWorld))) threeClicks)))
   <= maxExact + 1)%N /\
  NoDup (generatedNames
     (session (styleCounter (fst (DOMContentLoaded heroWorld))) threeClicks)).
Proof.
  assert (H : (N.of_nat (length (generatedNames
     (session (styleCounter (fst (DOMContentLoaded heroWorld))) threeClicks)))
   <= maxExact + 1)%N) by (vm_compute; discriminate).
  split; [exact H|].
  exact (proj2 (proj2
    (counter_monotone_names_distinct heroWorld threeClicks)) H).
Defined.

(** The session of the witnesses, click by click: nothing selected, an
    apply that succeeds, an apply the host rejects. *)
Example session_of_three :
  session 0 threeClicks =
  [mkClick (Some "dynamicStyle0") false 1;
   mkClick (Some "dynamicStyle1") true 2;
   mkClick (Some "dynamicStyle2") false 3].
Proof. vm_compute. reflexivity. Qed.

Example reject_is_reported :
  fb_textContent (feedbackMessage (document
    (after (applyStyles exampleStyle "dynamicStyle0") rejectingWorld))) =
  "Error applying styles: Error: Style name already exists".
Proof. vm_compute. reflexivity. Qed.

Example hex_inputs :
  map (RegExp.test hexColorPattern)
    ["#FF0000"; "#abc"; "#ABCDEF"; "#12345"; "#1234567"; "FF0000"; "#GGGGGG"; ""; "#"] =
  [true; true; true; false; false; false; false; false; false].
Proof. reflexivity. Qed.

(** * Further properties of the code *)

(** ** The colour pattern *)

(** X1.  The test of [getFontColorValue] accepts exactly the strings made
    of a hash sign followed by exactly three or exactly six characters out
    of [0-9], [a-f] and [A-F]: no other length, no other character, nothing
    before the hash sign and nothing after the digits. *)
Theorem hexColorPattern_accepts (s : string) :
  RegExp.test hexColorPattern s = true <-> HexColor s.
Proof. rewrite RegExpFacts.test_Matches. apply hexColorPattern_HexColor. Qed.

(** ** The style applier, whatever the host does *)

(** Every way the host can answer [applyStyles]: the selection present or
    not, with or without a styles collection, each call failing or not. *)
Ltac exec_all w :=
  destruct w as [[[[[old|] sv]|] site async
                   [[eGet|] [eCreate|] [eProps|] [eSave|] [eSet|] [eElem|] fStyles fName]]
                 doc log];
  simpl in *; simplify_eq/=;
  unfold outcome, after, newCalls;
  cbv [applyStyles bind ret throw try_catch record failing
       update_webflow getSelectedElement createStyle setProperties style_save
       read_styles setStyles element_save displayFeedback
       set_selected set_site_styles];
  simpl; rewrite <- ?app_assoc; simpl; rewrite ?drop_app_length.

Lemma set_feedbackMessage_same (d : Document) :
  set_feedbackMessage (feedbackMessage d) d = d.
Proof. now destruct d. Qed.

(** X2.  [applyStyles] awaits [getSelectedElement()] outside its [try]:
    when that call rejects, [applyStyles] rejects with the same error, has
    made no other call and reported nothing, and page and host are as they
    were. *)
Theorem applyStyles_rejects_with_selection
    (styleObject : gmap string string) (styleName : string) (w : World) (e : JsError) :
  getSelectedElement_fault (faults (webflow w)) = Some e ->
  applyStyles styleObject styleName w =
  (Throw e, mkWorld (webflow w) (document w) (calls w ++ [GetSelectedElement])).
Proof. intros H. exec w. reflexivity. Qed.

(** X4.  Once the selection is fetched, [applyStyles] never throws,
    whatever else the host does; it reports at most one message; and it
    reports none only when the element has no styles collection and the new
    style was created and saved. *)
Theorem applyStyles_completes
    (styleObject : gmap string string) (styleName : string) (w : World)
    (sel : option Element) :
  hostReturns w sel ->
  let w' := after (applyStyles styleObject styleName) w in
  outcome (applyStyles styleObject styleName) w = Normal tt /\
  length (List.filter isFeedback (newCalls w w')) <= 1 /\
  (List.filter isFeedback (newCalls w w') = [] ->
   exists el, sel = Some el /\ el_styles el = None /\ styleSaved w).
Proof.
  intros [Hf Hs] w'. subst w'. unfold styleSaved.
  exec_all w;
    (split; [reflexivity|]); (split; [simpl; lia|]);
    intros H; try discriminate H.
  all: eexists; repeat split.
Qed.

(** X5.  [applyStyles] stops at the first host call that fails and undoes
    nothing: after the failing call it issues no host call at all, only the
    error message.  A failure up to the save of the style leaves the
    element unread; a failure to attach leaves the element unsaved; a
    failure to save the element leaves it carrying the new style, with what
    was saved of it unchanged. *)
Theorem applyStyles_stops_at_failure
    (styleObject : gmap string string) (styleName : string) (w : World)
    (el : Element) (e : JsError) :
  hostReturns w (Some el) ->
  let f := faults (webflow w) in
  let w' := after (applyStyles styleObject styleName) w in
  let myStyle := mkStyle styleName styleObject in
  let report := DisplayFeedback (applyError e) KError in
  (createStyle_fault f = Some e ->
   newCalls w w' = [GetSelectedElement; CreateStyle styleName; report]) /\
  (createStyle_fault f = None -> setProperties_fault f = Some e ->
   newCalls w w' =
     [GetSelectedElement; CreateStyle styleName; SetProperties styleName styleObject; report]) /\
  (createStyle_fault f = None -> setProperties_fault f = None ->
   style_save_fault f = Some e ->
   newCalls w w' =
     [GetSelectedElement; CreateStyle styleName; SetProperties styleName styleObject;
      StyleSave myStyle; report]) /\
  (styleSaved w -> is_Some (el_styles el) -> setStyles_fault f = Some e ->
   newCalls w w' =
     [GetSelectedElement; CreateStyle styleName; SetProperties styleName styleObject;
      StyleSave myStyle; ReadStyles; SetStyles [myStyle]; report] /\
   selected (webflow w') = Some el) /\
  (styleSaved w -> is_Some (el_styles el) -> setStyles_fault f = None ->
   element_save_fault f = Some e ->
   newCalls w w' =
     [GetSelectedElement; CreateStyle styleName; SetProperties styleName styleObject;
      StyleSave myStyle; ReadStyles; SetStyles [myStyle]; ElementSave; report] /\
   selected (webflow w') = Some (mkElement (Some [myStyle]) (el_saved el))).
Proof.
  intros [Hf Hs] f w' myStyle report. subst f w' myStyle report.
  unfold styleSaved, applyError. destruct el as [st sv].
  split; [|split; [|split; [|split]]].
  - intros H1. exec w. reflexivity.
  - intros H1 H2. exec w. reflexivity.
  - intros H1 H2 H3. exec w. reflexivity.
  - intros (H1 & H2 & H3) [old Hold] H4. exec w. now split.
  - intros (H1 & H2 & H3) [old Hold] H4 H5. exec w. now split.
Qed.

(** X6.  Whatever the host does, [applyStyles] creates at most one style,
    under the name it was given; every style it saves or attaches is that
    style with exactly the given properties; it never asks the element for
    its styles or a style for its name; and it issues no call twice. *)
Theorem applyStyles_one_style
    (styleObject : gmap string string) (styleName : string) (w : World) :
  let l := newCalls w (after (applyStyles styleObject styleName) w) in
  NoDup l /\
  (List.filter isCreation l = [] \/ List.filter isCreation l = [CreateStyle styleName]) /\
  Forall
    (fun c =>
       match c with
       | SetProperties name props => name = styleName /\ props = styleObject
       | StyleSave s => s = mkStyle styleName styleObject
       | SetStyles styles => styles = [mkStyle styleName styleObject]
       | GetStyles | GetName _ => False
       | _ => True
       end) l.
Proof.
  intros l. subst l.
  exec_all w; (split; [distinct_calls|]); (split; [auto|]);
    repeat (apply Forall_cons_2; [now repeat split|]); apply Forall_nil_2.
Qed.

(** X7.  Of the page, [applyStyles] changes the feedback region and nothing
    else, whatever the host does; the region shows the last message the
    call reported, red for an error and green for a success, and still
    shows what it showed before when the call reported nothing. *)
Theorem applyStyles_page
    (styleObject : gmap string string) (styleName : string) (w : World) :
  let w' := after (applyStyles styleObject styleName) w in
  document w' =
  set_feedbackMessage (shownAfter (feedbackMessage (document w)) (newCalls w w')) (document w).
Proof.
  intros w'. subst w'.
  exec_all w; unfold shownAfter; simpl; now rewrite ?set_feedbackMessage_same.
Qed.

(** ** The combo-class checker, whatever the host does *)

Lemma array_some_run (name : string) (l : list Style) (w : World) :
  array_some (fun style => n <- getName style ;; ret (bool_decide (n = name))) l w =
  (searched (getName_fault (faults (webflow w))) name l,
   mkWorld (webflow w) (document w)
     (calls w ++ map GetName (asked (getName_fault (faults (webflow w))) name l))).
Proof.
  revert w. induction l as [|s l IH]; intros w.
  - simpl. unfold ret. rewrite app_nil_r. now destruct w.
  - cbn [array_some]. unfold bind at 1. unfold getName, bind, record, failing, ret.
    cbn [webflow document calls searched asked].
    destruct (getName_fault (faults (webflow w)) s) as [e|]; [reflexivity|].
    destruct (bool_decide (style_name s = name)); [reflexivity|].
    rewrite IH. cbn [webflow document calls map]. now rewrite <- app_assoc.
Qed.

Lemma displayFeedback_run (message : string) (type : Kind) (w : World) :
  displayFeedback message type w =
  (Normal tt,
   mkWorld (webflow w)
     (set_feedbackMessage (mkFeedback message (colourOf type)) (document w))
     (calls w ++ [DisplayFeedback message type])).
Proof. reflexivity. Qed.

(** The checker on a host that hands back the array, with [getName] free
    to throw. *)
Lemma checkComboClass_array_run (name : string) (w : World) (el : Element) :
  hostReturns w (Some el) ->
  getStyles_async (webflow w) = false ->
  getStyles_fault (faults (webflow w)) = None ->
  let fault := getName_fault (faults (webflow w)) in
  let l := default [] (el_styles el) in
  checkComboClass name w =
  displayFeedback
    (match searched fault name l with
     | Normal true => comboExists name
     | Normal false => comboMissing name
     | Throw e => checkError e
     end)
    (match searched fault name l with Normal true => KSuccess | _ => KError end)
    (mkWorld (webflow w) (document w)
       (calls w ++ [GetSelectedElement; GetStyles] ++ map GetName (asked fault name l))).
Proof.
  intros Hsel Ha Hg fault l.
  pose proof (getSelectedElement_resolves w (Some el) Hsel) as E1.
  destruct Hsel as [Hf Hs].
  set (w1 := mkWorld (webflow w) (document w) (calls w ++ [GetSelectedElement])) in E1.
  assert (E2 : getStyles w1 =
    (Normal (ArrayOf l), mkWorld (webflow w) (document w) (calls w1 ++ [GetStyles])))
    by exact (getStyles_array w1 el Hs Ha Hg).
  set (w2 := mkWorld (webflow w) (document w) (calls w1 ++ [GetStyles])) in E2.
  pose proof (array_some_run name l w2) as E3.
  change (getName_fault (faults (webflow w2))) with fault in E3.
  unfold checkComboClass. rewrite (bind_Normal _ _ _ _ _ E1).
  unfold try_catch. rewrite (bind_Normal _ _ _ _ _ E2). cbn [some].
  unfold bind at 1. rewrite E3.
  subst w2 w1. cbn [webflow document calls].
  rewrite <- !app_assoc. cbn [app].
  unfold comboExists, comboMissing, checkError.
  now destruct (searched fault name l) as [[|]|e].
Qed.

Lemma searched_reached (fault : Style -> option JsError) (name : string)
    (before : list Style) (s : Style) (rest : list Style) :
  reached fault name before ->
  searched fault name (before ++ s :: rest) = searched fault name (s :: rest) /\
  asked fault name (before ++ s :: rest) = before ++ asked fault name (s :: rest).
Proof.
  induction 1 as [|x before [Hx Hn] _ IH]; [now split|].
  cbn [app searched asked]. rewrite Hx, bool_decide_eq_false_2 by exact Hn.
  destruct IH as [-> ->]. now split.
Qed.

Lemma searched_all_reached (fault : Style -> option JsError) (name : string) (l : list Style) :
  reached fault name l ->
  searched fault name l = Normal false /\ asked fault name l = l.
Proof.
  induction 1 as [|x l [Hx Hn] _ IH]; [now split|].
  cbn [searched asked]. rewrite Hx, bool_decide_eq_false_2 by exact Hn.
  destruct IH as [-> ->]. now split.
Qed.

Lemma shownAfter_app (f : FeedbackElement) (l1 l2 : list Call) :
  shownAfter f (l1 ++ l2) = shownAfter (shownAfter f l1) l2.
Proof. apply fold_left_app. Qed.

Lemma shownAfter_GetName (f : FeedbackElement) (l : list Style) :
  shownAfter f (map GetName l) = f.
Proof. induction l as [|s l IH]; [reflexivity | exact IH]. Qed.

Lemma isFeedback_GetName (l : list Style) : List.filter isFeedback (map GetName l) = [].
Proof. induction l as [|s l IH]; [reflexivity | exact IH]. Qed.

Lemma checkComboClass_rejects_with_selection_run (name : string) (w : World) (e : JsError) :
  getSelectedElement_fault (faults (webflow w)) = Some e ->
  checkComboClass name w =
  (Throw e, mkWorld (webflow w) (document w) (calls w ++ [GetSelectedElement])).
Proof. intros H. exec w. reflexivity. Qed.

(** X3.  [checkComboClass] too awaits [getSelectedElement()] outside its
    [try]: when that call rejects, the checker rejects with the same error,
    has made no other call and reported nothing. *)
Theorem checkComboClass_rejects_with_selection (name : string) (w : World) (e : JsError) :
  getSelectedElement_fault (faults (webflow w)) = Some e ->
  checkComboClass name w =
  (Throw e, mkWorld (webflow w) (document w) (calls w ++ [GetSelectedElement])).
Proof. intros H. exec w. reflexivity. Qed.

(** X8.  With no element selected the checker exits early: it reports the
    one error [No element is currently selected.] and never asks for any
    styles. *)
Theorem checkComboClass_without_selection (name : string) (w : World) :
  hostReturns w None ->
  checkComboClass name w = (Normal tt, noSelectionWorld w).
Proof. intros [Hf Hs]. unfold noSelectionWorld. exec w. reflexivity. Qed.

(** X9.  When [getStyles()] itself throws, the checker catches the error:
    it returns normally, reports exactly one error whose text holds the
    error's message, and asks no style for its name. *)
Theorem checkComboClass_catches_getStyles (name : string) (w : World)
    (el : Element) (e : JsError) :
  hostReturns w (Some el) ->
  getStyles_fault (faults (webflow w)) = Some e ->
  outcome (checkComboClass name) w = Normal tt /\
  newCalls w (after (checkComboClass name) w) =
    [GetSelectedElement; GetStyles; DisplayFeedback (checkError e) KError] /\
  Contains (err_message e) (checkError e).
Proof.
  intros [Hf Hs] Hg. split; [|split].
  - exec w. reflexivity.
  - exec w. reflexivity.
  - apply Contains_prepend, errorToString_contains_message.
Qed.

(** X10.  On a host that hands back the array, the search stops at the
    first style that carries the name: the checker asks the styles before
    it and that style for their names and no style after it, so that a
    later style whose [getName] would throw goes unnoticed, and it reports
    the one success, which names the class. *)
Theorem checkComboClass_finds_first (name : string) (w : World) (el : Element)
    (before : list Style) (s : Style) (rest : list Style) :
  hostReturns w (Some el) ->
  getStyles_async (webflow w) = false ->
  getStyles_fault (faults (webflow w)) = None ->
  el_styles el = Some (before ++ s :: rest) ->
  reached (getName_fault (faults (webflow w))) name before ->
  getName_fault (faults (webflow w)) s = None ->
  style_name s = name ->
  outcome (checkComboClass name) w = Normal tt /\
  newCalls w (after (checkComboClass name) w) =
    [GetSelectedElement; GetStyles] ++ map GetName (before ++ [s])
      ++ [DisplayFeedback (comboExists name) KSuccess] /\
  Contains name (comboExists name).
Proof.
  intros Hsel Ha Hg Hl Hb Hs Hn.
  pose proof (checkComboClass_array_run name w el Hsel Ha Hg) as E. cbn zeta in E.
  assert (Hd : default [] (el_styles el) = before ++ s :: rest) by now rewrite Hl.
  rewrite Hd in E.
  destruct (searched_reached _ name before s rest Hb) as [E1 E2].
  rewrite E1, E2 in E. cbn [searched asked] in E.
  rewrite Hs, bool_decide_eq_true_2 in E by exact Hn.
  unfold outcome, after. rewrite E, displayFeedback_run. cbn [fst snd].
  split; [reflexivity|]. split; [|apply comboExists_contains].
  apply newCalls_extend. cbn [calls]. now rewrite <- !app_assoc.
Qed.

(** X11.  On a host that hands back the array, when [getName] throws on a
    style that the search reaches, the checker catches the error: it asks
    no further style, returns normally and reports exactly one error whose
    text holds the error's message. *)
Theorem checkComboClass_catches_getName (name : string) (w : World) (el : Element)
    (before : list Style) (s : Style) (rest : list Style) (e : JsError) :
  hostReturns w (Some el) ->
  getStyles_async (webflow w) = false ->
  getStyles_fault (faults (webflow w)) = None ->
  el_styles el = Some (before ++ s :: rest) ->
  reached (getName_fault (faults (webflow w))) name before ->
  getName_fault (faults (webflow w)) s = Some e ->
  outcome (checkComboClass name) w = Normal tt /\
  newCalls w (after (checkComboClass name) w) =
    [GetSelectedElement; GetStyles] ++ map GetName (before ++ [s])
      ++ [DisplayFeedback (checkError e) KError] /\
  Contains (err_message e) (checkError e).
Proof.
  intros Hsel Ha Hg Hl Hb Hs.
  pose proof (checkComboClass_array_run name w el Hsel Ha Hg) as E. cbn zeta in E.
  assert (Hd : default [] (el_styles el) = before ++ s :: rest) by now rewrite Hl.
  rewrite Hd in E.
  destruct (searched_reached _ name before s rest Hb) as [E1 E2].
  rewrite E1, E2 in E. cbn [searched asked] in E. rewrite Hs in E.
  unfold outcome, after. rewrite E, displayFeedback_run. cbn [fst snd].
  split; [reflexivity|]. split.
  - apply newCalls_extend. cbn [calls]. now rewrite <- !app_assoc.
  - apply Contains_prepend, errorToString_contains_message.
Qed.

(** X12.  On a host that hands back the array, when every style of the
    element answers with another name (in particular when the element has
    no style at all, or no styles collection), the checker asks each style
    once, in order, and reports the one error saying that the class does
    not exist, which names the class. *)
Theorem checkComboClass_misses (name : string) (w : World) (el : Element) :
  hostReturns w (Some el) ->
  getStyles_async (webflow w) = false ->
  getStyles_fault (faults (webflow w)) = None ->
  reached (getName_fault (faults (webflow w))) name (default [] (el_styles el)) ->
  outcome (checkComboClass name) w = Normal tt /\
  newCalls w (after (checkComboClass name) w) =
    [GetSelectedElement; GetStyles] ++ map GetName (default [] (el_styles el))
      ++ [DisplayFeedback (comboMissing name) KError] /\
  Contains name (comboMissing name).
Proof.
  intros Hsel Ha Hg Hl.
  pose proof (checkComboClass_array_run name w el Hsel Ha Hg) as E. cbn zeta in E.
  destruct (searched_all_reached _ name _ Hl) as [E1 E2].
  rewrite E1, E2 in E.
  unfold outcome, after. rewrite E, displayFeedback_run. cbn [fst snd].
  split; [reflexivity|]. split; [|apply comboMissing_contains].
  apply newCalls_extend. cbn [calls]. now rewrite <- !app_assoc.
Qed.

(** Every run of the checker that got its selection: the selection, at
    most one [getStyles()], names asked, one message. *)
Lemma checkComboClass_shape (name : string) (w : World) (sel : option Element) :
  hostReturns w sel ->
  exists gs ks message type,
    (gs = [] \/ gs = [GetStyles]) /\
    checkComboClass name w =
    (Normal tt,
     mkWorld (webflow w)
       (set_feedbackMessage (mkFeedback message (colourOf type)) (document w))
       (calls w ++ GetSelectedElement :: gs ++ map GetName ks
          ++ [DisplayFeedback message type])).
Proof.
  intros Hsel. destruct sel as [el|].
  - destruct (getStyles_fault (faults (webflow w))) as [e|] eqn:Hg.
    + exists [GetStyles], [], (checkError e), KError. split; [now right|].
      destruct Hsel as [Hf Hs]. unfold checkError. exec w. reflexivity.
    + destruct (getStyles_async (webflow w)) eqn:Ha.
      * exists [GetStyles], [],
          (checkError (TypeError "styles.some is not a function")), KError.
        split; [now right|].
        destruct Hsel as [Hf Hs]. unfold checkError. exec w. reflexivity.
      * pose proof (checkComboClass_array_run name w el Hsel Ha Hg) as E. cbn zeta in E.
        eexists [GetStyles], _, _, _. split; [now right|].
        rewrite E, displayFeedback_run. cbn [webflow document calls].
        now rewrite <- !app_assoc.
  - exists [], [], "No element is currently selected.", KError. split; [now left|].
    destruct Hsel as [Hf Hs]. exec w. reflexivity.
Qed.

Lemma existsb_isWrite_GetName (l : list Style) (rest : list Call) :
  existsb isWrite (map GetName l ++ rest) = existsb isWrite rest.
Proof. induction l as [|s l IH]; [reflexivity | exact IH]. Qed.

(** X13.  Once the selection is fetched, the checker never throws and
    reports exactly one message, whatever the host does: whether an element
    is selected or not, whatever [getStyles()] hands back or throws, and
    whichever [getName] throws. *)
Theorem checkComboClass_reports_once (name : string) (w : World) (sel : option Element) :
  hostReturns w sel ->
  outcome (checkComboClass name) w = Normal tt /\
  length (List.filter isFeedback (newCalls w (after (checkComboClass name) w))) = 1.
Proof.
  intros Hsel.
  destruct (checkComboClass_shape name w sel Hsel) as (gs & ks & m & k & Hgs & E).
  unfold outcome, after. rewrite E. cbn [fst snd]. split; [reflexivity|].
  erewrite newCalls_extend by reflexivity.
  cbn [List.filter isFeedback].
  destruct Hgs as [-> | ->]; cbn [app List.filter isFeedback];
    now rewrite filter_isFeedback_GetName.
Qed.

(** X14.  The checker only reads: whatever the host does, it creates,
    changes and saves nothing, the host is after the call as it was
    before, and of the page only the feedback region changes, which shows
    the last message reported, red for an error and green for a success. *)
Theorem checkComboClass_reads_only (name : string) (w : World) :
  let w' := after (checkComboClass name) w in
  webflow w' = webflow w /\
  existsb isWrite (newCalls w w') = false /\
  document w' =
    set_feedbackMessage (shownAfter (feedbackMessage (document w)) (newCalls w w')) (document w).
Proof.
  intros w'. subst w'.
  destruct (getSelectedElement_fault (faults (webflow w))) as [e|] eqn:Hf.
  - unfold after. rewrite (checkComboClass_rejects_with_selection_run name w e Hf).
    cbn [snd webflow document]. erewrite newCalls_extend by reflexivity.
    split; [reflexivity|]. split; [reflexivity|].
    cbn. now rewrite set_feedbackMessage_same.
  - assert (Hsel : hostReturns w (selected (webflow w))) by now split.
    destruct (checkComboClass_shape name w _ Hsel) as (gs & ks & m & k & Hgs & E).
    unfold after. rewrite E. cbn [snd webflow document].
    erewrite newCalls_extend by reflexivity.
    split; [reflexivity|]. split.
    + destruct Hgs as [-> | ->]; cbn [app existsb isWrite orb];
        rewrite existsb_isWrite_GetName; reflexivity.
    + f_equal. change (GetSelectedElement :: gs ++ map GetName ks ++ [DisplayFeedback m k])
        with ([GetSelectedElement] ++ gs ++ map GetName ks ++ [DisplayFeedback m k]).
      rewrite !shownAfter_app, shownAfter_GetName. reflexivity.
Qed.

(** ** Success, and applying again *)

Lemma applyStyles_applies_run
    (styleObject : gmap string string) (styleName : string) (w : World)
    (el : Element) :
  hostReturns w (Some el) ->
  is_Some (el_styles el) ->
  styleSaved w ->
  elementSaved w ->
  let myStyle := mkStyle styleName styleObject in
  applyStyles styleObject styleName w =
  (Normal tt,
   mkWorld
     (mkWebflow (Some (mkElement (Some [myStyle]) (Some [myStyle])))
        (site_styles (webflow w) ++ [myStyle])
        (getStyles_async (webflow w)) (faults (webflow w)))
     (set_feedbackMessage (mkFeedback "Styles successfully applied!" "green") (document w))
     (calls w ++
        [GetSelectedElement; CreateStyle styleName; SetProperties styleName styleObject;
         StyleSave myStyle; ReadStyles; SetStyles [myStyle]; ElementSave;
         DisplayFeedback "Styles successfully applied!" KSuccess])).
Proof.
  intros [Hf Hs] [old Hel] (Hc & Hp & Hv) [Hset Hsave] myStyle. subst myStyle.
  destruct el as [st sv]. exec w. reflexivity.
Qed.

(** X15.  [applyStyles] reports a success only after everything was done:
    whatever the host does, if the call reported a success then the new
    style, with the given name and properties, is the last style saved to
    the site, and the element carries it as its only style, saved. *)
Theorem applyStyles_success_means_saved
    (styleObject : gmap string string) (styleName : string) (w : World) :
  let w' := after (applyStyles styleObject styleName) w in
  let myStyle := mkStyle styleName styleObject in
  existsb isSuccess (newCalls w w') = true ->
  outcome (applyStyles styleObject styleName) w = Normal tt /\
  site_styles (webflow w') = site_styles (webflow w) ++ [myStyle] /\
  selected (webflow w') = Some (mkElement (Some [myStyle]) (Some [myStyle])) /\
  feedbackMessage (document w') = mkFeedback "Styles successfully applied!" "green".
Proof.
  intros w' myStyle. subst w' myStyle.
  exec_all w; intros H; try discriminate H. now repeat split.
Qed.

(** X16.  Applying twice replaces, it does not add: after two applies that
    both succeed, the site holds both new styles, in the order they were
    applied, and the element carries the second one only; the first stays
    in the site without an element. *)
Theorem applyStyles_twice
    (first second : gmap string string) (firstName secondName : string)
    (w : World) (el : Element) :
  hostReturns w (Some el) ->
  is_Some (el_styles el) ->
  styleSaved w ->
  elementSaved w ->
  let w1 := after (applyStyles first firstName) w in
  let w2 := after (applyStyles second secondName) w1 in
  let style1 := mkStyle firstName first in
  let style2 := mkStyle secondName second in
  outcome (applyStyles second secondName) w1 = Normal tt /\
  site_styles (webflow w2) = site_styles (webflow w) ++ [style1; style2] /\
  selected (webflow w2) = Some (mkElement (Some [style2]) (Some [style2])) /\
  List.filter isFeedback (newCalls w w2) =
    [DisplayFeedback "Styles successfully applied!" KSuccess;
     DisplayFeedback "Styles successfully applied!" KSuccess].
Proof.
  intros Hsel Hel Hsaved Helem w1 w2 style1 style2. subst w2 w1 style1 style2.
  pose proof (applyStyles_applies_run first firstName w el Hsel Hel Hsaved Helem) as E1.
  cbn zeta in E1. unfold outcome, after. rewrite E1. cbn [snd].
  set (w1 := mkWorld _ _ _).
  assert (Hsel1 : hostReturns w1 (Some (mkElement (Some [mkStyle firstName first])
                                          (Some [mkStyle firstName first]))))
    by (destruct Hsel; now split).
  pose proof (applyStyles_applies_run second secondName w1 _ Hsel1
                ltac:(eexists; reflexivity) Hsaved Helem) as E2.
  cbn zeta in E2. rewrite E2. subst w1. cbn [fst snd webflow site_styles selected calls].
  split; [reflexivity|]. split; [now rewrite <- app_assoc|]. split; [reflexivity|].
  erewrite newCalls_extend; [|cbn [calls]; rewrite <- app_assoc; reflexivity].
  reflexivity.
Qed.

(** ** The submit handler *)

Lemma getFontColorValue_HexColor (d : Document) :
  (HexColor (in_value (fontColorHex d)) -> getFontColorValue d = in_value (fontColorHex d)) /\
  (~ HexColor (in_value (fontColorHex d)) ->
   getFontColorValue d = sel_value (fontColorDropdown d)).
Proof.
  unfold getFontColorValue. split.
  - intros H. pose proof H as (digits & Hs & _).
    apply hexColorPattern_HexColor, RegExpFacts.test_Matches in H.
    rewrite H, Hs. reflexivity.
  - intros H. destruct (RegExp.test hexColorPattern (in_value (fontColorHex d))) eqn:E.
    + exfalso. apply H. now apply hexColorPattern_HexColor, RegExpFacts.test_Matches.
    + now rewrite andb_false_r.
Qed.

(** X17.  A click on the submit button, on a page that has its font-family
    dropdown, with an element selected that has a styles collection and no
    host call failing: the style saved and attached is named after the
    counter as the click found it and carries the font size chosen, the
    font family chosen, and as colour the text of the hex input when that
    is a hex colour and the colour chosen in the dropdown when it is not;
    the counter is incremented and the success is shown. *)
Theorem submit_click_applies (styleCounter : N) (w : World)
    (dropdown : HTMLSelectElement) (el : Element) :
  fontFamilyDropdown (document w) = Some dropdown ->
  hostReturns w (Some el) ->
  is_Some (el_styles el) ->
  styleSaved w ->
  elementSaved w ->
  let d := document w in
  let myStyle :=
    mkStyle (dynamicStyle styleCounter)
      (styleObjectOf (sel_value (fontSizeDropdown d)) (getFontColorValue d)
         (sel_value dropdown)) in
  let w' := snd (snd (onSubmitClick styleCounter w)) in
  fst (onSubmitClick styleCounter w) = Normal tt /\
  fst (snd (onSubmitClick styleCounter w)) = increment styleCounter /\
  site_styles (webflow w') = site_styles (webflow w) ++ [myStyle] /\
  selected (webflow w') = Some (mkElement (Some [myStyle]) (Some [myStyle])) /\
  feedbackMessage (document w') = mkFeedback "Styles successfully applied!" "green" /\
  style_properties myStyle !! "font-size" = Some (sel_value (fontSizeDropdown d)) /\
  style_properties myStyle !! "font-family" = Some (sel_value dropdown) /\
  (HexColor (in_value (fontColorHex d)) ->
   style_properties myStyle !! "color" = Some (in_value (fontColorHex d))) /\
  (~ HexColor (in_value (fontColorHex d)) ->
   style_properties myStyle !! "color" = Some (sel_value (fontColorDropdown d))).
Proof.
  intros Hdd Hsel Hel Hsaved Helem d myStyle w'. subst w' myStyle d.
  unfold onSubmitClick, prepareSubmit. rewrite Hdd.
  rewrite (applyStyles_applies_run _ _ w el Hsel Hel Hsaved Helem).
  cbn [fst snd webflow site_styles selected document style_properties].
  destruct (styleObjectOf_properties (sel_value (fontSizeDropdown (document w)))
              (getFontColorValue (document w)) (sel_value dropdown))
    as (Hsize & Hcolor & Hfamily & _). cbn zeta in *.
  destruct (getFontColorValue_HexColor (document w)) as [Hhex Hno].
  do 5 (split; [reflexivity|]). split; [exact Hsize|]. split; [exact Hfamily|].
  split; intros H; rewrite Hcolor; f_equal; auto.
Qed.

(** X18.  A click on the submit button of a page that has no font-family
    dropdown throws before anything is done: the handler rejects with the
    [TypeError] of reading [value] off [null], no host call is made, nothing
    is reported, and the counter stays where it was. *)
Theorem submit_click_without_fonts (styleCounter : N) (w : World) :
  fontFamilyDropdown (document w) = None ->
  onSubmitClick styleCounter w =
  (Throw (TypeError "Cannot read properties of null (reading 'value')"), (styleCounter, w)).
Proof. intros H. unfold onSubmitClick, prepareSubmit. now rewrite H. Qed.

(** ** Sessions *)

Lemma click_successful (c : N) (w : World) :
  successful (click c w) = true -> is_Some (generated (click c w)).
Proof.
  rewrite click_generated. unfold click, onSubmitClick, prepareSubmit.
  destruct (fontFamilyDropdown (document w)) as [dd|]; [eauto|].
  cbn [successful]. unfold newCalls. rewrite drop_all. discriminate.
Qed.

(** X19.  In every session the counter is the number of names generated so
    far, capped at [2^53], which it never exceeds; the [i]-th name
    generated is [dynamicStyle<i>] up to [2^53] and
    [dynamicStyle9007199254740992] from there on. *)
Theorem counter_closed_form (w0 : World) (clicks : list World) :
  let start := styleCounter (fst (DOMContentLoaded w0)) in
  let names := generatedNames (session start clicks) in
  counterAfter start clicks = N.min (N.of_nat (length names)) maxExact /\
  (counterAfter start clicks <= maxExact)%N /\
  names = map (fun i => dynamicStyle (N.min (N.of_nat i) maxExact)) (seq 0 (length names)) /\
  dynamicStyle maxExact = "dynamicStyle9007199254740992".
Proof.
  intros start names. subst names start. cbn [DOMContentLoaded fst styleCounter].
  assert (H0 : (0 <= maxExact)%N) by lia.
  split; [|split; [|split]].
  - rewrite counterAfter_closed by exact H0. f_equal.
  - rewrite counterAfter_closed by exact H0. lia.
  - rewrite generatedNames_closed at 1 by exact H0. reflexivity.
  - vm_compute. reflexivity.
Qed.

(** X20.  A click counts as successful only if it generated a name, and
    every click generates at most one: in every session the successes are
    at most as many as the names generated, and these at most as many as
    the clicks. *)
Theorem successes_at_most_names (styleCounter : N) (clicks : list World) :
  successes (session styleCounter clicks) <=
    length (generatedNames (session styleCounter clicks)) /\
  length (generatedNames (session styleCounter clicks)) <= length clicks.
Proof.
  revert styleCounter. induction clicks as [|w clicks IH]; intros c; [split; reflexivity|].
  cbn [session]. rewrite generatedNames_cons.
  unfold successes in *. rewrite filter_cons.
  destruct (IH (counter_after (click c w))) as [IH1 IH2].
  pose proof (click_successful c w) as Hs.
  destruct (decide (successful (click c w) = true)) as [Hy|Hn].
  - destruct (Hs Hy) as [name Hname]. rewrite Hname. cbn [length]. lia.
  - destruct (generated (click c w)); cbn [length]; lia.
Qed.

(** ** The further properties at work *)

Lemma applyStyles_rejects_with_selection_witness :
  getSelectedElement_fault (faults (webflow offlineWorld)) = Some offline /\
  outcome (applyStyles exampleStyle "dynamicStyle0") offlineWorld = Throw offline.
Proof.
  split; [reflexivity|]. unfold outcome.
  now rewrite (applyStyles_rejects_with_selection exampleStyle "dynamicStyle0"
                 offlineWorld offline eq_refl).
Defined.

Lemma applyStyles_completes_witness :
  hostReturns elementRejectingWorld (Some heroElement) /\
  outcome (applyStyles exampleStyle "dynamicStyle0") elementRejectingWorld = Normal tt.
Proof.
  assert (H : hostReturns elementRejectingWorld (Some heroElement)) by (split; reflexivity).
  split; [exact H|].
  exact (proj1 (applyStyles_completes exampleStyle "dynamicStyle0" elementRejectingWorld _ H)).
Defined.

Lemma applyStyles_stops_at_failure_witness :
  hostReturns elementRejectingWorld (Some heroElement) /\
  styleSaved elementRejectingWorld /\
  selected (webflow (after (applyStyles exampleStyle "dynamicStyle0") elementRejectingWorld)) =
    Some (mkElement (Some [mkStyle "dynamicStyle0" exampleStyle]) (el_saved heroElement)).
Proof.
  assert (H1 : hostReturns elementRejectingWorld (Some heroElement)) by (split; reflexivity).
  assert (H2 : styleSaved elementRejectingWorld) by (repeat split; reflexivity).
  split; [exact H1|]. split; [exact H2|].
  exact (proj2 (proj2 (proj2 (proj2 (proj2
    (applyStyles_stops_at_failure exampleStyle "dynamicStyle0" elementRejectingWorld
       heroElement rejected H1)))) H2 (ex_intro _ _ eq_refl) eq_refl eq_refl)).
Defined.

Lemma checkComboClass_rejects_with_selection_witness :
  getSelectedElement_fault (faults (webflow offlineWorld)) = Some offline /\
  outcome (checkComboClass "hero") offlineWorld = Throw offline.
Proof.
  split; [reflexivity|]. unfold outcome.
  now rewrite (checkComboClass_rejects_with_selection "hero" offlineWorld offline eq_refl).
Defined.

Lemma checkComboClass_without_selection_witness :
  hostReturns lonelyWorld None /\
  calls (after (checkComboClass "hero") lonelyWorld) =
    [GetSelectedElement; DisplayFeedback "No element is currently selected." KError].
Proof.
  assert (H : hostReturns lonelyWorld None) by (split; reflexivity).
  split; [exact H|]. unfold after.
  now rewrite (checkComboClass_without_selection "hero" lonelyWorld H).
Defined.

Lemma checkComboClass_catches_getStyles_witness :
  hostReturns stylesRejectingWorld (Some heroElement) /\
  outcome (checkComboClass "hero") stylesRejectingWorld = Normal tt.
Proof.
  assert (H : hostReturns stylesRejectingWorld (Some heroElement)) by (split; reflexivity).
  split; [exact H|].
  exact (proj1 (checkComboClass_catches_getStyles "hero" stylesRejectingWorld
                  heroElement rejected H eq_refl)).
Defined.

Lemma checkComboClass_finds_first_witness :
  reached brokenName "hero" [mkStyle "card" ∅] /\
  newCalls cardWorld (after (checkComboClass "hero") cardWorld) =
    [GetSelectedElement; GetStyles] ++ map GetName ([mkStyle "card" ∅] ++ [mkStyle "hero" ∅])
      ++ [DisplayFeedback (comboExists "hero") KSuccess].
Proof.
  assert (H : reached brokenName "hero" [mkStyle "card" ∅])
    by (constructor; [split; [reflexivity | discriminate] | constructor]).
  split; [exact H|].
  exact (proj1 (proj2
    (checkComboClass_finds_first "hero" cardWorld (mkElement (Some cardStyles) None)
       [mkStyle "card" ∅] (mkStyle "hero" ∅) [mkStyle "broken" ∅]
       (conj eq_refl eq_refl) eq_refl eq_refl eq_refl H eq_refl eq_refl))).
Defined.

Lemma checkComboClass_catches_getName_witness :
  reached brokenName "footer" [mkStyle "card" ∅; mkStyle "hero" ∅] /\
  newCalls cardWorld (after (checkComboClass "footer") cardWorld) =
    [GetSelectedElement; GetStyles] ++ map GetName cardStyles
      ++ [DisplayFeedback (checkError rejected) KError].
Proof.
  assert (H : reached brokenName "footer" [mkStyle "card" ∅; mkStyle "hero" ∅])
    by (repeat (constructor; [split; [reflexivity | discriminate]|]); constructor).
  split; [exact H|].
  exact (proj1 (proj2
    (checkComboClass_catches_getName "footer" cardWorld (mkElement (Some cardStyles) None)
       [mkStyle "card" ∅; mkStyle "hero" ∅] (mkStyle "broken" ∅) [] rejected
       (conj eq_refl eq_refl) eq_refl eq_refl eq_refl H eq_refl))).
Defined.

(** The name is compared as it is written: [Hero] is not [hero]. *)
Lemma checkComboClass_misses_witness :
  reached (getName_fault (faults (webflow arrayWorld))) "Hero"
    (default [] (el_styles heroElement)) /\
  newCalls arrayWorld (after (checkComboClass "Hero") arrayWorld) =
    [GetSelectedElement; GetStyles] ++ map GetName (default [] (el_styles heroElement))
      ++ [DisplayFeedback (comboMissing "Hero") KError].
Proof.
  assert (H : reached (getName_fault (faults (webflow arrayWorld))) "Hero"
                (default [] (el_styles heroElement)))
    by (constructor; [split; [reflexivity | discriminate] | constructor]).
  split; [exact H|].
  exact (proj1 (proj2
    (checkComboClass_misses "Hero" arrayWorld heroElement
       (conj eq_refl eq_refl) eq_refl eq_refl H))).
Defined.

Lemma checkComboClass_reports_once_witness :
  hostReturns cardWorld (Some (mkElement (Some cardStyles) None)) /\
  length (List.filter isFeedback
    (newCalls cardWorld (after (checkComboClass "footer") cardWorld))) = 1.
Proof.
  assert (H : hostReturns cardWorld (Some (mkElement (Some cardStyles) None)))
    by (split; reflexivity).
  split; [exact H|].
  exact (proj2 (checkComboClass_reports_once "footer" cardWorld _ H)).
Defined.

Lemma applyStyles_success_means_saved_witness :
  existsb isSuccess
    (newCalls heroWorld (after (applyStyles exampleStyle "dynamicStyle0") heroWorld)) = true /\
  site_styles (webflow (after (applyStyles exampleStyle "dynamicStyle0") heroWorld)) =
    site_styles (webflow heroWorld) ++ [mkStyle "dynamicStyle0" exampleStyle].
Proof.
  assert (H : existsb isSuccess
    (newCalls heroWorld (after (applyStyles exampleStyle "dynamicStyle0") heroWorld)) = true)
    by (vm_compute; reflexivity).
  split; [exact H|].
  exact (proj1 (proj2
    (applyStyles_success_means_saved exampleStyle "dynamicStyle0" heroWorld H))).
Defined.

Lemma applyStyles_twice_witness :
  hostReturns heroWorld (Some heroElement) /\
  styleSaved heroWorld /\ elementSaved heroWorld /\
  site_styles (webflow
    (after (applyStyles exampleStyle "dynamicStyle1")
       (after (applyStyles exampleStyle "dynamicStyle0") heroWorld))) =
  site_styles (webflow heroWorld)
    ++ [mkStyle "dynamicStyle0" exampleStyle; mkStyle "dynamicStyle1" exampleStyle].
Proof.
  assert (H1 : hostReturns heroWorld (Some heroElement)) by (split; reflexivity).
  assert (H2 : styleSaved heroWorld) by (repeat split; reflexivity).
  assert (H3 : elementSaved heroWorld) by (split; reflexivity).
  split; [exact H1|]. split; [exact H2|]. split; [exact H3|].
  exact (proj1 (proj2
    (applyStyles_twice exampleStyle exampleStyle "dynamicStyle0" "dynamicStyle1"
       heroWorld heroElement H1 (ex_intro _ _ eq_refl) H2 H3))).
Defined.

Lemma submit_click_applies_witness :
  hostReturns redWorld (Some heroElement) /\
  styleSaved redWorld /\ elementSaved redWorld /\
  HexColor (in_value (fontColorHex (document redWorld))) /\
  style_properties
    (mkStyle (dynamicStyle 7)
       (styleObjectOf "16px" (getFontColorValue (document redWorld)) "Arial")) !! "color" =
  Some "#FF0000".
Proof.
  assert (H1 : hostReturns redWorld (Some heroElement)) by (split; reflexivity).
  assert (H2 : styleSaved redWorld) by (repeat split; reflexivity).
  assert (H3 : elementSaved redWorld) by (split; reflexivity).
  assert (H4 : HexColor (in_value (fontColorHex (document redWorld))))
    by (exists "FF0000"; repeat split; auto).
  split; [exact H1|]. split; [exact H2|]. split; [exact H3|]. split; [exact H4|].
  exact (proj1 (proj2 (proj2 (proj2 (proj2 (proj2 (proj2 (proj2
    (submit_click_applies 7 redWorld (mkSelect [] "Arial") heroElement
       eq_refl H1 (ex_intro _ _ eq_refl) H2 H3)))))))) H4).
Defined.

Lemma submit_click_without_fonts_witness :
  fontFamilyDropdown (document noFontsWorld) = None /\
  onSubmitClick 7 noFontsWorld =
  (Throw (TypeError "Cannot read properties of null (reading 'value')"), (7%N, noFontsWorld)).
Proof.
  split; [reflexivity|].
  exact (submit_click_without_fonts 7 noFontsWorld eq_refl).
Defined.

Lemma checkComboClass_array_witness :
  hostReturns arrayWorld (Some heroElement) /\
  (exists s, s ∈ default [] (el_styles heroElement) /\ style_name s = "hero") /\
  List.filter isFeedback (newCalls arrayWorld (after (checkComboClass "hero") arrayWorld)) =
    [DisplayFeedback (comboExists "hero") KSuccess].
Proof.
  assert (H1 : hostReturns arrayWorld (Some heroElement)) by (split; reflexivity).
  assert (H2 : exists s, s ∈ default [] (el_styles heroElement) /\ style_name s = "hero")
    by (exists (mkStyle "hero" ∅); split; [constructor | reflexivity]).
  split; [exact H1|]. split; [exact H2|].
  exact (proj1 (proj2
    (checkComboClass_array "hero" arrayWorld heroElement H1 eq_refl eq_refl
       (fun _ => eq_refl))) H2).
Defined.

Lemma checkComboClass_promise_witness :
  hostReturns heroWorld (Some heroElement) /\
  getStyles_async (webflow heroWorld) = true /\
  outcome (checkComboClass "hero") heroWorld = Normal tt.
Proof.
  assert (H1 : hostReturns heroWorld (Some heroElement)) by (split; reflexivity).
  split; [exact H1|]. split; [reflexivity|].
  exact (proj1 (checkComboClass_promise "hero" heroWorld heroElement H1 eq_refl eq_refl)).
Defined.

(** Populating the ordinary page at load time: the dropdown is there and
    empty, nothing is chosen in it; afterwards it offers the six names and
    Arial is chosen. *)
Example populate_empty_dropdown :
  let d :=
    mkDocument (mkFeedback "" "") (mkSelect [] "16px") (mkInput "") (mkSelect [] "#000000")
      (Some (mkSelect [] "")) (mkInput "") true true in
  fontFamilyDropdown (populateFontFamilyDropdown d) =
  Some (mkSelect (map (fun font => mkOption font font) fonts) "Arial").
Proof. reflexivity. Qed.
